(** * tinylink-backend: short-code allocation and the redirect-and-count path

    A shallow embedding of [utils.js] (code alphabet, code pattern, random
    code generator) and of the Express handlers of [index.js], run against a
    model of the [links] table.  JavaScript strings are modelled as
    [string]; integers of the table as [Z]. *)

From Stdlib Require Import String Ascii List ZArith Lia Bool Arith.
From Stdlib Require Import Permutation Sorted.
Import ListNotations.
Local Open Scope string_scope.

(* ===================================================================== *)
(** ** Regular expressions, as far as [CODE_REGEX] needs them *)
(* ===================================================================== *)

Module RegExp.

(** A class atom [[a-b c-d ...]]: a list of inclusive character ranges. *)
Definition char_class := list (ascii * ascii).

Inductive term : Type :=
| LineStart                                   (* ^ *)
| LineEnd                                     (* $ *)
| Repeat (cls : char_class) (lo hi : nat).    (* [..]{lo,hi} *)

Definition pattern := list term.

Definition in_range (c : ascii) (r : ascii * ascii) : bool :=
  (nat_of_ascii (fst r) <=? nat_of_ascii c)%nat
  && (nat_of_ascii c <=? nat_of_ascii (snd r))%nat.

Definition in_class (cls : char_class) (c : ascii) : bool :=
  existsb (in_range c) cls.

(** Greedy bounded repetition with backtracking: take one more character
    of the class when possible, otherwise (or when the rest of the pattern
    then fails) stop here if the lower bound has been reached.  [k] is the
    rest of the pattern, [idx] the index of the current position. *)
Fixpoint match_repeat (cls : char_class) (lo hi : nat)
         (k : nat -> string -> bool) (idx : nat) (s : string) : bool :=
  match hi with
  | O => (lo =? 0)%nat && k idx s
  | S hi' =>
      match s with
      | String c s' =>
          in_class cls c && match_repeat cls (pred lo) hi' k (S idx) s'
      | EmptyString => false
      end
      || ((lo =? 0)%nat && k idx s)
  end.

(** Does [p] match at the current position?  Without the [m] flag [^]
    holds only at index 0 and [$] only at the end of the input. *)
Fixpoint match_here (p : pattern) (idx : nat) (s : string) : bool :=
  match p with
  | [] => true
  | LineStart :: p' => (idx =? 0)%nat && match_here p' idx s
  | LineEnd :: p' =>
      match s with
      | EmptyString => match_here p' idx s
      | String _ _ => false
      end
  | Repeat cls lo hi :: p' => match_repeat cls lo hi (match_here p') idx s
  end.

(** [RegExp.prototype.test]: try every start position, left to right. *)
Fixpoint search (p : pattern) (idx : nat) (s : string) : bool :=
  match_here p idx s
  || match s with
     | String _ s' => search p (S idx) s'
     | EmptyString => false
     end.

Definition test (p : pattern) (s : string) : bool := search p 0 s.

End RegExp.

(* ===================================================================== *)
(** ** Numbers drawn by [Math.random] *)
(* ===================================================================== *)

(** A double in the interval [0,1) is [mant * 2^-(53 + expo)] with
    [0 <= mant < 2^53] and [0 <= expo]. *)
Record draw : Type := { mant : Z; expo : Z }.

Definition draw_ok (d : draw) : Prop :=
  (0 <= mant d < 2 ^ 53)%Z /\ (0 <= expo d)%Z.

(** Rounding of a non-negative integer significand to 53 bits, to nearest,
    ties to even: the rounding of a binary64 product. *)
Definition round53 (m : Z) : Z :=
  let bits := (Z.log2 m + 1)%Z in
  if (bits <=? 53)%Z then m
  else
    let s := (bits - 53)%Z in
    let q := (m / 2 ^ s)%Z in
    let r := (m mod 2 ^ s)%Z in
    let half := (2 ^ (s - 1))%Z in
    let q' := if (half <? r)%Z || ((r =? half)%Z && Z.odd q)
              then (q + 1)%Z else q in
    (q' * 2 ^ s)%Z.

(** [Math.floor(x * n)] for a draw [x] and a small non-negative integer
    [n]: the exact product has significand [mant x * n] at the exponent of
    [x]; it is rounded to a double and then floored. *)
Definition floor_mul (x : draw) (n : Z) : Z :=
  (round53 (mant x * n) / 2 ^ (53 + expo x))%Z.

(* ===================================================================== *)
(** ** utils.js *)
(* ===================================================================== *)

Definition ALPHABET : string :=
  "abcdefghijklmnopqrstuvwxyzABCDEFGHIJKLMNOPQRSTUVWXYZ0123456789".

Definition CODE_REGEX : RegExp.pattern :=
  [ RegExp.LineStart;
    RegExp.Repeat [("A", "Z"); ("a", "z"); ("0", "9")]%char 6 8;
    RegExp.LineEnd ].

Definition isValidCode (code : string) : bool := RegExp.test CODE_REGEX code.

(** [ALPHABET[index]] converted to a string for [+=]: an index outside the
    string gives [undefined], which [+=] appends as the text "undefined". *)
Definition char_at (s : string) (index : Z) : string :=
  if (index <? 0)%Z then "undefined"
  else match String.get (Z.to_nat index) s with
       | Some c => String c EmptyString
       | None => "undefined"
       end.

(** The characters of a code, and the alphanumeric test of the spec. *)
Definition alphanumeric (c : ascii) : bool :=
  let n := nat_of_ascii c in
  ((65 <=? n) && (n <=? 90) || (97 <=? n) && (n <=? 122)
   || (48 <=? n) && (n <=? 57))%nat.

Fixpoint all_chars (f : ascii -> bool) (s : string) : bool :=
  match s with
  | EmptyString => true
  | String c s' => f c && all_chars f s'
  end.

(** The format of the spec, [A-Za-z0-9]{6,8}, in its own words: length
    between 6 and 8 and only alphanumeric characters. *)
Definition code_format (s : string) : bool :=
  (6 <=? String.length s)%nat && (String.length s <=? 8)%nat
  && all_chars alphanumeric s.

(** Membership in [ALPHABET]. *)
Definition in_alphabet (c : ascii) : bool :=
  existsb (Ascii.eqb c) (list_ascii_of_string ALPHABET).

(** The characters [generateCode] appends for the draws [e pos],
    [e (pos + 1)], ..., [n] of them. *)
Fixpoint picks (e : nat -> draw) (pos n : nat) : string :=
  match n with
  | O => ""
  | S n' =>
      char_at ALPHABET (floor_mul (e pos) (Z.of_nat (String.length ALPHABET)))
      ++ picks e (S pos) n'
  end.

(** [generateCode] and the handlers below are written in a small monad of
    programs, defined next; the pure part of [utils.js] ends here. *)

(* ===================================================================== *)
(** ** The links table *)
(* ===================================================================== *)

(** One row of [links], with the column names the handlers use. *)
Record link : Type := {
  id : Z;
  code : string;
  original_url : string;
  clicks : Z;
  last_clicked_at : option Z;
  created_at : Z
}.

(** The statements the handlers send through [query], one constructor per
    SQL text of [index.js]. *)
Inductive statement : Type :=
| SelectIdByCode (c : string)          (* SELECT id FROM links WHERE code = $1 *)
| InsertLink (c url : string)          (* INSERT INTO links (code, original_url) ... RETURNING * *)
| SelectAll                            (* SELECT ... FROM links ORDER BY created_at DESC *)
| SelectStatsByCode (c : string)       (* SELECT id, code, ... FROM links WHERE code = $1 *)
| DeleteByCode (c : string)            (* DELETE FROM links WHERE code = $1 *)
| SelectIdUrlByCode (c : string)       (* SELECT id, original_url FROM links WHERE code = $1 *)
| UpdateClicksById (i : Z).            (* UPDATE links SET clicks = clicks + 1,
                                          last_clicked_at = NOW() WHERE id = $1 *)

(** What [query] resolves to ([rows], [rowCount]) and what it throws: an
    error object, of which the handlers read only [code]. *)
Record qresult : Type := { rows : list link; rowCount : nat }.
Record exn : Type := { exn_code : option string }.

Definition unique_violation : exn := {| exn_code := Some "23505" |}.
Definition type_error : exn := {| exn_code := None |}.

Record store : Type := { links : list link; next_id : Z }.

Definition empty_store : store := {| links := []; next_id := 1 |}.

Definition has_code (c : string) (l : link) : bool := String.eqb (code l) c.
Definition has_id (i : Z) (l : link) : bool := Z.eqb (id l) i.

Definition visit (now : Z) (l : link) : link :=
  {| id := id l; code := code l; original_url := original_url l;
     clicks := clicks l + 1; last_clicked_at := Some now;
     created_at := created_at l |}.

(** The visit of the record with identity [i]: other records are left. *)
Definition visit_id (now i : Z) (l : link) : link :=
  if has_id i l then visit now l else l.

Definition new_link (i : Z) (c url : string) (now : Z) : link :=
  {| id := i; code := c; original_url := url;
     clicks := 0; last_clicked_at := None; created_at := now |}.

(** ORDER BY created_at DESC. *)
Fixpoint insert_desc (l : link) (ls : list link) : list link :=
  match ls with
  | [] => [l]
  | x :: ls' =>
      if (created_at x <? created_at l)%Z then l :: ls
      else x :: insert_desc l ls'
  end.

Definition newest_first (ls : list link) : list link :=
  fold_right insert_desc [] ls.

Definition answer (rs : list link) : qresult :=
  {| rows := rs; rowCount := List.length rs |}.

(** Modelled from the spec: the table definition and [db.js] are not part
    of the sources.  Following the data model of the spec, [code] carries a
    uniqueness constraint whose violation is reported on insert (SQLSTATE
    23505), [id] is assigned at creation and never reused, [clicks] starts
    at 0, [last_clicked_at] is absent until the first visit and
    [created_at] is the time of creation.  Each statement is atomic. *)
Definition exec_statement (now : Z) (q : statement) (s : store)
  : (exn + qresult) * store :=
  match q with
  | SelectIdByCode c | SelectStatsByCode c | SelectIdUrlByCode c =>
      (inr (answer (filter (has_code c) (links s))), s)
  | SelectAll => (inr (answer (newest_first (links s))), s)
  | InsertLink c url =>
      if existsb (has_code c) (links s) then (inl unique_violation, s)
      else
        let l := new_link (next_id s) c url now in
        (inr (answer [l]),
         {| links := links s ++ [l]; next_id := next_id s + 1 |})
  | DeleteByCode c =>
      (inr {| rows := [];
              rowCount := List.length (filter (has_code c) (links s)) |},
       {| links := filter (fun l => negb (has_code c l)) (links s);
          next_id := next_id s |})
  | UpdateClicksById i =>
      (inr {| rows := [];
              rowCount := List.length (filter (has_id i) (links s)) |},
       {| links := map (visit_id now i) (links s); next_id := next_id s |})
  end.

(* ===================================================================== *)
(** ** Programs: awaiting the store, drawing random numbers, exceptions *)
(* ===================================================================== *)

(** An async handler is a tree of its awaits.  [Await q k] sends [q] and
    continues with what [query] threw ([inl]) or resolved to ([inr]);
    [Random k] is one call of [Math.random]; [Spin] stands for a [while]
    loop that is still running after the number of iterations the model
    was given. *)
Inductive prog (A : Type) : Type :=
| Ret (a : A)
| Throw (e : exn)
| Await (q : statement) (k : exn + qresult -> prog A)
| Random (k : draw -> prog A)
| Spin.

Arguments Ret {A} a.
Arguments Throw {A} e.
Arguments Await {A} q k.
Arguments Random {A} k.
Arguments Spin {A}.

Fixpoint bind {A B : Type} (p : prog A) (f : A -> prog B) : prog B :=
  match p with
  | Ret a => f a
  | Throw e => Throw e
  | Await q k => Await q (fun r => bind (k r) f)
  | Random k => Random (fun d => bind (k d) f)
  | Spin => Spin
  end.

(** [try { p } catch (err) { h err }] *)
Fixpoint try_catch {A : Type} (p : prog A) (h : exn -> prog A) : prog A :=
  match p with
  | Ret a => Ret a
  | Throw e => h e
  | Await q k => Await q (fun r => try_catch (k r) h)
  | Random k => Random (fun d => try_catch (k d) h)
  | Spin => Spin
  end.

(** [await query(...)]: a rejected promise is thrown at the await. *)
Definition query (q : statement) : prog qresult :=
  Await q (fun r => match r with inl e => Throw e | inr x => Ret x end).

Definition random : prog draw := Random (fun d => Ret d).

Declare Scope prog_scope.
Delimit Scope prog_scope with prog.
Notation "x <- p ;; k" := (bind p (fun x => k))
  (at level 61, p at next level, right associativity) : prog_scope.
Notation "'try' p 'catch' err => h" := (try_catch p (fun err => h))
  (at level 62, p at level 61, err name, h at level 61) : prog_scope.
Local Open Scope prog_scope.

(** [rows[0]]; reading a field of [undefined] throws a TypeError. *)
Definition first_row (r : qresult) : prog link :=
  match rows r with
  | l :: _ => Ret l
  | [] => Throw type_error
  end.

(** *** utils.js, continued: [generateCode] *)

(** The body of the [for] loop, [n] iterations still to go. *)
Fixpoint generateCode_loop (n : nat) (code : string) : prog string :=
  match n with
  | O => Ret code
  | S n' =>
      r <- random ;;
      let index := floor_mul r (Z.of_nat (String.length ALPHABET)) in
      generateCode_loop n' (code ++ char_at ALPHABET index)
  end.

Definition generateCode (length : nat) : prog string :=
  generateCode_loop length "".

(* ===================================================================== *)
(** ** Running a program against the store *)
(* ===================================================================== *)

(** What surrounds one await of a handler: the statements other requests
    commit while this one waits ([others]), the time that passes
    ([elapsed]), and whether the store then fails the awaited statement
    ([fault]) instead of executing it. *)
Record tick : Type := {
  others : list statement;
  elapsed : Z;
  fault : option exn
}.

Definition quiet : tick := {| others := []; elapsed := 0; fault := None |}.

(** The world of one request: the table, the clock ([NOW()]), the numbers
    [Math.random] is going to return and how many were taken, what is going
    to surround the coming awaits ([ahead]; quiet ticks once the list is
    used up), and the statements this request has sent so far. *)
Record world : Type := {
  db : store;
  clock : Z;
  entropy : nat -> draw;
  drawn : nat;
  ahead : list tick;
  log : list statement
}.

Definition with_db (s : store) (w : world) : world :=
  {| db := s; clock := clock w; entropy := entropy w; drawn := drawn w;
     ahead := ahead w; log := log w |}.

Definition advance (dt : Z) (w : world) : world :=
  {| db := db w; clock := clock w + dt; entropy := entropy w;
     drawn := drawn w; ahead := ahead w; log := log w |}.

Definition take_draws (n : nat) (w : world) : world :=
  {| db := db w; clock := clock w; entropy := entropy w;
     drawn := n + drawn w; ahead := ahead w; log := log w |}.

Definition sent (q : statement) (w : world) : world :=
  {| db := db w; clock := clock w; entropy := entropy w; drawn := drawn w;
     ahead := tl (ahead w); log := log w ++ [q] |}.

(** No other request in flight and a healthy store. *)
Definition alone (w : world) : world :=
  {| db := db w; clock := clock w; entropy := entropy w; drawn := drawn w;
     ahead := []; log := log w |}.

(** The world [w] with [ts] around the coming awaits. *)
Definition amid (ts : list tick) (w : world) : world :=
  {| db := db w; clock := clock w; entropy := entropy w; drawn := drawn w;
     ahead := ts; log := log w |}.

(** Statements of other requests, committed one after the other. *)
Definition commit_all (now : Z) (qs : list statement) (s : store) : store :=
  fold_left (fun s q => snd (exec_statement now q s)) qs s.

(** Statements committed at their times, whoever sent them. *)
Definition replay (qs : list (Z * statement)) (s : store) : store :=
  fold_left (fun s tq => snd (exec_statement (fst tq) (snd tq) s)) qs s.

Definition interfere (t : tick) (w : world) : world :=
  let w1 := advance (elapsed t) w in
  with_db (commit_all (clock w1) (others t) (db w1)) w1.

Inductive outcome (A : Type) : Type :=
| Returned (a : A)
| Uncaught (e : exn)
| Spinning.

Arguments Returned {A} a.
Arguments Uncaught {A} e.
Arguments Spinning {A}.

(** [run p w]: each await of [p] takes the next tick of [ahead w]. *)
Fixpoint run {A : Type} (p : prog A) (w : world) : outcome A * world :=
  match p with
  | Ret a => (Returned a, w)
  | Throw e => (Uncaught e, w)
  | Spin => (Spinning, w)
  | Random k => run (k (entropy w (drawn w))) (take_draws 1 w)
  | Await q k =>
      let t := hd quiet (ahead w) in
      let w1 := sent q (interfere t w) in
      match fault t with
      | Some e => run (k (inl e)) w1
      | None =>
          let (r, s') := exec_statement (clock w1) q (db w1) in
          run (k r) (with_db s' w1)
      end
  end.

(* ===================================================================== *)
(** ** index.js: the handlers *)
(* ===================================================================== *)

Inductive body : Type :=
| Message (message : string)
| LinkJson (l : link) (short_url : string)
| LinksJson (ls : list (link * string))
| HealthJson (ok : bool) (version : string).

Inductive response : Type :=
| Json (status : nat) (b : body)         (* res.status(n).json(b) *)
| Send (status : nat) (text : string)    (* res.status(n).send(text) *)
| Redirect (status : nat) (url : string) (* res.redirect(url) *)
| Empty (status : nat).                  (* res.status(n).end() *)

Definition status_of (r : response) : nat :=
  match r with
  | Json n _ | Send n _ | Redirect n _ | Empty n => n
  end.

Definition status_of_outcome (r : outcome response) : option nat :=
  match r with
  | Returned x => Some (status_of x)
  | _ => None
  end.

(** A field of the JSON body, [None] when it is missing (or null), else a
    string; [truthy] is the test of [if (v)]: a non-empty string. *)
Definition truthy (v : option string) : bool :=
  match v with
  | Some (String _ _) => true
  | _ => false
  end.

(** [String(v)], as [RegExp.prototype.test] and the URL constructor apply
    it to their argument. *)
Definition to_string (v : option string) : string :=
  match v with
  | Some s => s
  | None => "undefined"
  end.

Section Handlers.

(** The environment of the process, and the URL parser of the platform:
    [URL_parses u] holds when [new URL(u)] does not throw. *)
Variable BASE_URL : string.
Variable VERSION : string.
Variable URL_parses : string -> bool.

(** utils.js: [isValidUrl] *)
Definition isValidUrl (url : string) : bool := URL_parses url.

Definition short_url (c : string) : string := BASE_URL ++ "/" ++ c.

(** GET /healthz *)
Definition get_healthz : prog response :=
  Ret (Json 200 (HealthJson true VERSION)).

(** The [while (exists)] loop of POST /api/links, [fuel] iterations. *)
Fixpoint generate_unique (fuel : nat) : prog string :=
  match fuel with
  | O => Spin
  | S fuel' =>
      finalCode <- generateCode 6 ;;
      existing <- query (SelectIdByCode finalCode) ;;
      if (0 <? List.length (rows existing))%nat
      then generate_unique fuel'
      else Ret finalCode
  end.

(** POST /api/links, body [{ url, code }] *)
Definition post_links (fuel : nat) (url code_ : option string)
  : prog response :=
  if negb (truthy url) then
    Ret (Json 400 (Message "url is required"))
  else if negb (isValidUrl (to_string url)) then
    Ret (Json 400 (Message "Invalid URL"))
  else if truthy code_ && negb (isValidCode (to_string code_)) then
    Ret (Json 400 (Message "Code must match [A-Za-z0-9]{6,8}"))
  else
    try
      (finalCode <- (if negb (truthy code_) then generate_unique fuel
                     else Ret (to_string code_)) ;;
       result <- query (InsertLink finalCode (to_string url)) ;;
       link <- first_row result ;;
       Ret (Json 201 (LinkJson link (short_url (code link)))))
    catch err =>
      (if match exn_code err with
          | Some c => String.eqb c "23505"
          | None => false
          end
       then Ret (Json 409 (Message "Code already exists"))
       else Ret (Json 500 (Message "Server error"))).

(** GET /api/links *)
Definition get_links : prog response :=
  try
    (result <- query SelectAll ;;
     Ret (Json 200 (LinksJson
            (map (fun row => (row, short_url (code row))) (rows result)))))
  catch err => Ret (Json 500 (Message "Server error")).

(** GET /api/links/:code *)
Definition get_link_stats (code_ : string) : prog response :=
  if negb (isValidCode code_) then
    Ret (Json 400 (Message "Invalid code format"))
  else
    try
      (result <- query (SelectStatsByCode code_) ;;
       if (List.length (rows result) =? 0)%nat then
         Ret (Json 404 (Message "Code not found"))
       else
         link <- first_row result ;;
         Ret (Json 200 (LinkJson link (short_url (code link)))))
    catch err => Ret (Json 500 (Message "Server error")).

(** DELETE /api/links/:code *)
Definition delete_link (code_ : string) : prog response :=
  if negb (isValidCode code_) then
    Ret (Json 400 (Message "Invalid code format"))
  else
    try
      (result <- query (DeleteByCode code_) ;;
       if (rowCount result =? 0)%nat then
         Ret (Json 404 (Message "Code not found"))
       else Ret (Empty 204))
    catch err => Ret (Json 500 (Message "Server error")).

(** GET /:code *)
Definition get_code (code_ : string) : prog response :=
  if String.eqb code_ "api" || String.eqb code_ "healthz" then
    Ret (Send 404 "Not found")
  else if negb (isValidCode code_) then
    Ret (Send 404 "Short URL not found")
  else
    try
      (result <- query (SelectIdUrlByCode code_) ;;
       if (List.length (rows result) =? 0)%nat then
         Ret (Send 404 "Short URL not found")
       else
         link <- first_row result ;;
         _ <- query (UpdateClicksById (id link)) ;;
         Ret (Redirect 302 (original_url link)))
    catch err => Ret (Send 500 "Server error").

(** The operations of the service, one per route. *)
Inductive operation : Type :=
| Health
| Allocate (url code : option string)
| List_
| Stats (c : string)
| Delete (c : string)
| Resolve (c : string).

Definition handler (fuel : nat) (o : operation) : prog response :=
  match o with
  | Health => get_healthz
  | Allocate url c => post_links fuel url c
  | List_ => get_links
  | Stats c => get_link_stats c
  | Delete c => delete_link c
  | Resolve c => get_code c
  end.

(** One request served with no other request in flight and a healthy
    store; requests served one after the other. *)
Definition serve (fuel : nat) (o : operation) (w : world)
  : outcome response * world :=
  run (handler fuel o) (alone w).

Fixpoint serve_all (fuel : nat) (os : list operation) (w : world) : world :=
  match os with
  | [] => w
  | o :: os' => serve_all fuel os' (snd (serve fuel o w))
  end.

End Handlers.

(* ===================================================================== *)
(** ** Invariants of the table and vocabulary of the statements below *)
(* ===================================================================== *)

(** Identities and codes are unique, every identity was handed out before
    [next_id], and no click counter is negative. *)
Definition store_ok (s : store) : Prop :=
  NoDup (map id (links s))
  /\ NoDup (map code (links s))
  /\ Forall (fun l => (id l < next_id s)%Z /\ (0 <= clicks l)%Z) (links s).

(** Is there a record with code [c]? *)
Definition taken (c : string) (s : store) : bool :=
  existsb (has_code c) (links s).

(** The world after one await that nothing disturbed: the statement [q] is
    logged and the table is [s']. *)
Definition after (q : statement) (s' : store) (w : world) : world :=
  {| db := s'; clock := clock w; entropy := entropy w; drawn := drawn w;
     ahead := []; log := log w ++ [q] |}.

(** The [k]-th candidate (from 0) the allocation loop generates in [w]. *)
Definition candidate (w : world) (k : nat) : string :=
  picks (entropy w) (6 * k + drawn w) 6.

(** What serving one operation in [w] may do to the table: nothing, the
    insertion of one new record with a code that was free (Allocate), the
    removal of the records with a code (Delete), or the visit of the record
    a lookup by code returned (Resolve, answered with a redirect to it). *)
Inductive effect (w : world)
  : operation -> outcome response -> store -> Prop :=
| effect_none o r :
    effect w o r (db w)
| effect_insert url c c' u r :
    taken c' (db w) = false ->
    status_of_outcome r = Some 201%nat ->
    effect w (Allocate url c) r
      {| links := links (db w)
                  ++ [new_link (next_id (db w)) c' u (clock w)];
         next_id := next_id (db w) + 1 |}
| effect_delete c r :
    effect w (Delete c) r
      {| links := filter (fun l => negb (has_code c l)) (links (db w));
         next_id := next_id (db w) |}
| effect_visit c l ls :
    filter (has_code c) (links (db w)) = l :: ls ->
    effect w (Resolve c) (Returned (Redirect 302 (original_url l)))
      {| links := map (visit_id (clock w) (id l)) (links (db w));
         next_id := next_id (db w) |}.

(** The fields of a record that no statement writes. *)
Definition same_identity (l l' : link) : Prop :=
  id l' = id l /\ code l' = code l
  /\ original_url l' = original_url l /\ created_at l' = created_at l.

(** The record an insertion of [c] for [u] creates in [w], and the table
    with it. *)
Definition created (c u : string) (w : world) : link :=
  new_link (next_id (db w)) c u (clock w).

Definition inserted (c u : string) (w : world) : store :=
  {| links := links (db w) ++ [created c u w];
     next_id := next_id (db w) + 1 |}.

(** The lookups of the first [n] candidates, and the world after them when
    nothing disturbed the loop. *)
Definition lookups (w : world) (n : nat) : list statement :=
  map (fun k => SelectIdByCode (candidate w k)) (seq 0 n).

Definition searched (n : nat) (w : world) : world :=
  {| db := db w; clock := clock w; entropy := entropy w;
     drawn := 6 * n + drawn w; ahead := []; log := log w ++ lookups w n |}.

(** Where the records of the table come from after one operation: a
    record is an old one, untouched or visited by the Resolve of its own
    code, or it is the one record a successful Allocate created. *)
Definition provenance (w : world) (o : operation) (r : outcome response)
           (l' : link) : Prop :=
  (exists l, In l (links (db w)) /\ same_identity l l'
     /\ (l' = l
         \/ (l' = visit (clock w) l /\ o = Resolve (code l)
             /\ r = Returned (Redirect 302 (original_url l)))))
  \/ (id l' = next_id (db w) /\ clicks l' = 0%Z
      /\ last_clicked_at l' = None /\ created_at l' = clock w
      /\ (exists u c, o = Allocate u c)
      /\ status_of_outcome r = Some 201%nat).

(* ===================================================================== *)
(** ** Concrete worlds, for the examples at the end *)
(* ===================================================================== *)

Module Example.

Definition base : string := "http://localhost:5000".
Definition version : string := "1.0".

(** A stand-in for the URL parser: it accepts what starts with
    [https://]. *)
Definition parses (u : string) : bool := String.prefix "https://" u.

Definition page : string := "https://example.com/page".

(** The draws 0 and 1/2: the indices 0 and 31, the letters a and F. *)
Definition zero : draw := {| mant := 0; expo := 0 |}.
Definition half : draw := {| mant := 2 ^ 52; expo := 0 |}.

(** Six draws of 0 and then 1/2 for ever: the candidates "aaaaaa",
    "FFFFFF", "FFFFFF", ... *)
Definition dice (k : nat) : draw := if (k <? 6)%nat then zero else half.

Definition world_of (ls : list link) (n : Z) (ts : list tick) : world :=
  {| db := {| links := ls; next_id := n |}; clock := 1000;
     entropy := dice; drawn := 0; ahead := ts; log := [] |}.

Definition abcdef : link :=
  {| id := 1; code := "abcdef"; original_url := page;
     clicks := 0; last_clicked_at := None; created_at := 900 |}.

Definition aaaaaa : link :=
  {| id := 1; code := "aaaaaa"; original_url := page;
     clicks := 3; last_clicked_at := Some 950%Z; created_at := 900 |}.

Definition healthz : link :=
  {| id := 2; code := "healthz"; original_url := page;
     clicks := 0; last_clicked_at := None; created_at := 950 |}.

(** The store does not answer (SQLSTATE 08006, connection failure). *)
Definition unavailable : exn := {| exn_code := Some "08006" |}.

Definition blank : world := world_of [] 1 [].
Definition one_link : world := world_of [abcdef] 2 [].
Definition first_taken : world := world_of [aaaaaa] 2 [].
Definition two_links : world := world_of [abcdef; healthz] 3 [].

(** Another request inserts the code "aaaaaa" between the first and the
    second await of this one. *)
Definition raced : world :=
  world_of [] 1
    [quiet;
     {| others := [InsertLink "aaaaaa" "https://elsewhere.example/"];
        elapsed := 1; fault := None |}].

(** The second await of the request fails. *)
Definition failing : world :=
  world_of [abcdef] 2
    [quiet; {| others := []; elapsed := 1; fault := Some unavailable |}].

(** Between the lookup and the update the code "abcdef" is deleted and
    created again. *)
Definition recreated : world :=
  world_of [abcdef] 2
    [quiet;
     {| others := [DeleteByCode "abcdef";
                   InsertLink "abcdef" "https://elsewhere.example/"];
        elapsed := 1; fault := None |}].

(** The first candidate of [first_taken] is taken, the second is free. *)
Definition candidate_check : bool :=
  taken (candidate first_taken 0) (db first_taken)
  && negb (taken (candidate first_taken 1) (db first_taken)).

End Example.

(* ===================================================================== *)
(** ** Vocabulary of the further properties *)
(* ===================================================================== *)

(** Newest first: the order of [ORDER BY created_at DESC]. *)
Definition not_older (a b : link) : Prop := (created_at b <= created_at a)%Z.

(** Every stored code has the format of a code. *)
Definition codes_valid (s : store) : Prop :=
  Forall (fun l => isValidCode (code l) = true) (links s).

Module Scenario.

(** Another request inserts the code "abcdeX" before the first await. *)
Definition inserts_first : tick :=
  {| others := [InsertLink "abcdeX" "https://elsewhere.example/"];
     elapsed := 1; fault := None |}.

(** The store fails the next statement. *)
Definition down : tick :=
  {| others := []; elapsed := 0; fault := Some Example.unavailable |}.

(** Another request deletes the code "abcdef". *)
Definition deletes : tick :=
  {| others := [DeleteByCode "abcdef"]; elapsed := 1; fault := None |}.

(** Served one after the other from the empty table. *)
Definition session : list operation :=
  [Allocate (Some Example.page) (Some "abcdef");
   Allocate (Some Example.page) None;
   Resolve "abcdef";
   Allocate (Some Example.page) (Some "abcdef");
   Delete "aaaaaa";
   Allocate (Some Example.page) (Some "")].

End Scenario.

(* ===================================================================== *)
(** ** Properties of utils.js *)
(* ===================================================================== *)

Section RegExpFacts.

Import RegExp.

Lemma search_anchored (p : pattern) (s : string) :
  forall idx, search (LineStart :: p) (S idx) s = false.
Proof.
  induction s as [|c s IH]; intro idx; simpl; [reflexivity|].
  apply IH.
Qed.

Lemma test_anchored (p : pattern) (s : string) :
  test (LineStart :: p) s = match_here p 0 s.
Proof.
  unfold test. destruct s as [|c s]; simpl.
  - now rewrite orb_false_r.
  - now rewrite search_anchored, orb_false_r.
Qed.

Lemma match_repeat_to_end (cls : char_class) :
  forall hi lo idx s,
    match_repeat cls lo hi (match_here [LineEnd]) idx s
    = (lo <=? String.length s)%nat && (String.length s <=? hi)%nat
      && all_chars (in_class cls) s.
Proof.
  induction hi as [|hi IH]; intros lo idx s.
  - destruct s as [|c s]; simpl.
    + destruct lo; reflexivity.
    + rewrite andb_false_r. now destruct (lo <=? S (String.length s))%nat.
  - destruct s as [|c s].
    + simpl. destruct lo; reflexivity.
    + cbn [match_repeat match_here String.length all_chars].
      rewrite IH, andb_false_r, orb_false_r.
      replace (pred lo <=? String.length s)%nat
        with (lo <=? S (String.length s))%nat by (destruct lo; reflexivity).
      change (S (String.length s) <=? S hi)%nat
        with (String.length s <=? hi)%nat.
      destruct (in_class cls c); simpl; [reflexivity|].
      now rewrite !andb_false_r.
Qed.

End RegExpFacts.

Lemma code_class_alphanumeric (c : ascii) :
  RegExp.in_class [("A", "Z"); ("a", "z"); ("0", "9")]%char c = alphanumeric c.
Proof.
  unfold RegExp.in_class, RegExp.in_range, alphanumeric; simpl.
  now rewrite orb_false_r, orb_assoc.
Qed.

Lemma all_chars_ext (f g : ascii -> bool) (s : string) :
  (forall c, f c = g c) -> all_chars f s = all_chars g s.
Proof.
  intro H. induction s as [|c s IH]; simpl; [reflexivity|].
  now rewrite H, IH.
Qed.

(** C5: [isValidCode] returns true for exactly the strings of the format
    [A-Za-z0-9]{6,8}: those of length 6 to 8 with only characters in A-Z,
    a-z, 0-9; for every other string it returns false. *)
Theorem isValidCode_format (s : string) : isValidCode s = code_format s.
Proof.
  unfold isValidCode, CODE_REGEX, code_format.
  rewrite test_anchored.
  cbn [RegExp.match_here].
  rewrite match_repeat_to_end.
  f_equal. apply all_chars_ext, code_class_alphanumeric.
Qed.

(** *** The index computed from a draw *)

Lemma round_up_bound (m s : Z) :
  (0 <= m)%Z -> (1 <= s <= 6)%Z ->
  let q := (m / 2 ^ s)%Z in
  let r := (m mod 2 ^ s)%Z in
  (0 <= q * 2 ^ s <= m)%Z /\
  ((2 ^ (s - 1) <= r)%Z -> ((q + 1) * 2 ^ s <= m + 32)%Z).
Proof.
  intros Hm Hs q r; subst q r.
  assert (Hc : (s = 1 \/ s = 2 \/ s = 3 \/ s = 4 \/ s = 5 \/ s = 6)%Z) by lia.
  destruct Hc as [-> | [-> | [-> | [-> | [-> | ->]]]]];
    cbn; Z.div_mod_to_equations; lia.
Qed.

(** Rounding the product of a draw and 62 never reaches 62. *)
Lemma round53_bound (m : Z) :
  (0 <= m <= 62 * (2 ^ 53 - 1))%Z -> (0 <= round53 m < 62 * 2 ^ 53)%Z.
Proof.
  intros Hm. unfold round53.
  destruct (Z.leb_spec (Z.log2 m + 1) 53) as [Hb|Hb]; [lia|].
  assert (Hpos : (0 < m)%Z).
  { destruct (Z.eq_dec m 0) as [->|]; [simpl in Hb; lia|lia]. }
  assert (Hlog : (Z.log2 m < 59)%Z) by (apply Z.log2_lt_pow2; lia).
  set (s := (Z.log2 m + 1 - 53)%Z).
  assert (Hs : (1 <= s <= 6)%Z) by lia.
  destruct (round_up_bound m s) as [Hq Hup]; [lia|exact Hs|].
  cbv zeta in Hq, Hup.
  destruct (Z.ltb_spec (2 ^ (s - 1)) (m mod 2 ^ s)) as [Hr|Hr]; simpl.
  - specialize (Hup ltac:(lia)). nia.
  - destruct (Z.eqb_spec (m mod 2 ^ s) (2 ^ (s - 1))) as [He|He]; simpl.
    + destruct (Z.odd (m / 2 ^ s)); [|lia].
      specialize (Hup ltac:(lia)). nia.
    + lia.
Qed.

Lemma floor_mul_range (d : draw) :
  draw_ok d ->
  (0 <= floor_mul d (Z.of_nat (String.length ALPHABET)) < 62)%Z.
Proof.
  intros [Hm He]. unfold floor_mul.
  change (Z.of_nat (String.length ALPHABET)) with 62%Z.
  pose proof (round53_bound (mant d * 62)) as Hr.
  specialize (Hr ltac:(lia)).
  assert (Hp : (2 ^ 53 <= 2 ^ (53 + expo d))%Z)
    by (apply Z.pow_le_mono_r; lia).
  split.
  - apply Z.div_pos; lia.
  - apply Z.div_lt_upper_bound; nia.
Qed.

Lemma char_at_ALPHABET (i : Z) :
  (0 <= i < 62)%Z ->
  exists c, char_at ALPHABET i = String c EmptyString /\ in_alphabet c = true.
Proof.
  intro Hi.
  assert (H : exists n, i = Z.of_nat n /\ (n < 62)%nat)
    by (exists (Z.to_nat i); lia).
  destruct H as (n & -> & Hn).
  do 62 (destruct n as [|n]; [eexists; split; reflexivity|]).
  lia.
Qed.

Lemma in_alphabet_alphanumeric (c : ascii) : in_alphabet c = alphanumeric c.
Proof.
  destruct c as [[] [] [] [] [] [] [] []]; vm_compute; reflexivity.
Qed.

Lemma picks_alphabet (e : nat -> draw) :
  (forall k, draw_ok (e k)) ->
  forall n pos,
    String.length (picks e pos n) = n
    /\ all_chars in_alphabet (picks e pos n) = true.
Proof.
  intros He. induction n as [|n IH]; intro pos; [now split|].
  cbn [picks].
  destruct (char_at_ALPHABET _ (floor_mul_range _ (He pos))) as (c & -> & Hc).
  destruct (IH (S pos)) as [Hlen Hall].
  cbn [append String.length all_chars]. now rewrite Hlen, Hc, Hall.
Qed.

(** *** Running programs *)

Lemma run_bind {A B : Type} (p : prog A) (f : A -> prog B) :
  forall w,
    run (bind p f) w
    = match run p w with
      | (Returned a, w') => run (f a) w'
      | (Uncaught e, w') => (Uncaught e, w')
      | (Spinning, w') => (Spinning, w')
      end.
Proof.
  induction p as [a|e|q k IH|k IH|]; intro w; simpl; try reflexivity.
  - destruct (fault (hd quiet (ahead w))); [apply IH|].
    destruct (exec_statement _ q _) as [r s']. apply IH.
  - apply IH.
Qed.

Lemma run_try_catch {A : Type} (p : prog A) (h : exn -> prog A) :
  forall w,
    run (try_catch p h) w
    = match run p w with
      | (Uncaught e, w') => run (h e) w'
      | r => r
      end.
Proof.
  induction p as [a|e|q k IH|k IH|]; intro w; simpl; try reflexivity.
  - destruct (fault (hd quiet (ahead w))); [apply IH|].
    destruct (exec_statement _ q _) as [r s']. apply IH.
  - apply IH.
Qed.

Lemma append_assoc (s t u : string) : (s ++ t) ++ u = s ++ t ++ u.
Proof. induction s as [|c s IH]; simpl; [reflexivity|]. now rewrite IH. Qed.

Lemma take_draws_take_draws (n m : nat) (w : world) :
  take_draws n (take_draws m w) = take_draws (n + m) w.
Proof. unfold take_draws; simpl. f_equal. lia. Qed.

Lemma run_generateCode_loop :
  forall n code_ w,
    run (generateCode_loop n code_) w
    = (Returned (code_ ++ picks (entropy w) (drawn w) n), take_draws n w).
Proof.
  induction n as [|n IH]; intros code_ w.
  - simpl. destruct w; unfold take_draws; simpl.
    f_equal. f_equal. clear. induction code_ as [|c s IH]; simpl; congruence.
  - cbn [generateCode_loop bind random run].
    rewrite IH, take_draws_take_draws, append_assoc.
    replace (n + 1)%nat with (S n) by lia. reflexivity.
Qed.

Lemma run_generateCode (n : nat) (w : world) :
  run (generateCode n) w
  = (Returned (picks (entropy w) (drawn w) n), take_draws n w).
Proof. unfold generateCode. now rewrite run_generateCode_loop. Qed.

(** C6: for a length L with 6 <= L <= 8, [generateCode] returns a string
    of exactly L characters, each of them one of the 62 symbols of
    [ALPHABET]; it sends nothing to the store and leaves the table, the
    clock and the pending ticks as they were. *)
Theorem generateCode_length_alphabet (L : nat) (w : world) :
  (6 <= L <= 8)%nat ->
  (forall k, draw_ok (entropy w k)) ->
  String.length ALPHABET = 62%nat /\
  exists code_ w',
    run (generateCode L) w = (Returned code_, w')
    /\ String.length code_ = L
    /\ all_chars in_alphabet code_ = true
    /\ db w' = db w /\ log w' = log w
    /\ clock w' = clock w /\ ahead w' = ahead w.
Proof.
  intros _ He. split; [reflexivity|].
  destruct (picks_alphabet _ He L (drawn w)) as [Hlen Hall].
  exists (picks (entropy w) (drawn w) L), (take_draws L w).
  rewrite run_generateCode. repeat split; assumption.
Qed.

(* ===================================================================== *)
(** ** Properties of the handlers *)
(* ===================================================================== *)

(** *** The table *)

Lemma has_code_true (c : string) (l : link) : has_code c l = true <-> code l = c.
Proof. unfold has_code. apply String.eqb_eq. Qed.

Lemma has_id_true (i : Z) (l : link) : has_id i l = true <-> id l = i.
Proof. unfold has_id. apply Z.eqb_eq. Qed.

Lemma taken_true (c : string) (s : store) :
  taken c s = true <-> exists l, In l (links s) /\ code l = c.
Proof.
  unfold taken. rewrite existsb_exists.
  split; intros (l & Hin & H); exists l; split; auto; now apply has_code_true.
Qed.

Lemma taken_false (c : string) (s : store) :
  taken c s = false <-> forall l, In l (links s) -> code l <> c.
Proof.
  split.
  - intros H l Hin Hc.
    assert (taken c s = true) by (apply taken_true; eauto). congruence.
  - intro H. destruct (taken c s) eqn:E; [|reflexivity].
    apply taken_true in E. destruct E as (l & Hin & Hc). now elim (H l).
Qed.

Lemma filter_length_pos {A : Type} (p : A -> bool) (ls : list A) :
  (0 <? List.length (filter p ls))%nat = existsb p ls.
Proof.
  induction ls as [|x ls IH]; simpl; [reflexivity|].
  destruct (p x); simpl; [reflexivity|exact IH].
Qed.

Lemma filter_length_zero {A : Type} (p : A -> bool) (ls : list A) :
  (List.length (filter p ls) =? 0)%nat = negb (existsb p ls).
Proof.
  induction ls as [|x ls IH]; simpl; [reflexivity|].
  destruct (p x); simpl; [reflexivity|exact IH].
Qed.

Lemma NoDup_map_filter {A B : Type} (f : A -> B) (p : A -> bool) (ls : list A) :
  NoDup (map f ls) -> NoDup (map f (filter p ls)).
Proof.
  induction ls as [|x ls IH]; simpl; intro H; [constructor|].
  inversion H as [|? ? Hnotin Hnd]; subst.
  destruct (p x); simpl; [constructor|]; auto.
  intro Hin. apply Hnotin.
  apply in_map_iff in Hin. destruct Hin as (y & Hy & Hin).
  apply filter_In in Hin. apply in_map_iff. exists y. tauto.
Qed.

Lemma filter_none {A : Type} (p : A -> bool) (ls : list A) :
  (forall x, In x ls -> p x = false) -> filter p ls = [].
Proof.
  induction ls as [|x ls IH]; intro H; simpl; [reflexivity|].
  rewrite H by now left. apply IH. intros y Hy. apply H. now right.
Qed.

(** With unique codes the lookup by code returns the record or nothing. *)
Lemma lookup_unique (s : store) (l : link) :
  NoDup (map code (links s)) -> In l (links s) ->
  filter (has_code (code l)) (links s) = [l].
Proof.
  induction (links s) as [|x ls IH]; simpl; intros Hnd Hin; [easy|].
  inversion Hnd as [|? ? Hnotin Hnd']; subst.
  destruct Hin as [->|Hin].
  - unfold has_code at 1. rewrite String.eqb_refl. f_equal.
    apply filter_none. intros y Hy.
    destruct (has_code (code l) y) eqn:E; [|reflexivity].
    apply has_code_true in E. elim Hnotin. rewrite <- E. now apply in_map.
  - destruct (has_code (code l) x) eqn:E.
    + apply has_code_true in E. elim Hnotin. rewrite E. now apply in_map.
    + now apply IH.
Qed.

Lemma lookup_taken (c : string) (s : store) :
  filter (has_code c) (links s) = [] <-> taken c s = false.
Proof.
  unfold taken. induction (links s) as [|x ls IH]; simpl; [tauto|].
  destruct (has_code c x); simpl; [split; discriminate|exact IH].
Qed.

Lemma lookup_head (c : string) (s : store) (l : link) (ls : list link) :
  filter (has_code c) (links s) = l :: ls -> In l (links s) /\ code l = c.
Proof.
  intro H. assert (Hin : In l (filter (has_code c) (links s)))
    by (rewrite H; now left).
  apply filter_In in Hin. destruct Hin as [Hin Hc].
  split; [exact Hin|now apply has_code_true].
Qed.

Lemma visit_same_identity (now : Z) (l : link) : same_identity l (visit now l).
Proof. now repeat split. Qed.

Lemma visit_id_same_identity (now i : Z) (l : link) :
  same_identity l (visit_id now i l).
Proof. unfold visit_id. destruct (has_id i l); now repeat split. Qed.

Lemma exec_statement_ok (now : Z) (q : statement) (s : store) :
  store_ok s -> store_ok (snd (exec_statement now q s)).
Proof.
  intros (Hid & Hcode & Hall).
  destruct q as [c|c url| |c|c|c|i]; simpl; try (now repeat split).
  - destruct (existsb (has_code c) (links s)) eqn:E; simpl; [now repeat split|].
    fold (taken c s) in E. rewrite taken_false in E.
    repeat split; simpl.
    + rewrite map_app; simpl.
      apply NoDup_app; [exact Hid|repeat constructor; easy|].
      intros i Hi [<-|[]].
      apply in_map_iff in Hi. destruct Hi as (l & Hl & Hin).
      rewrite Forall_forall in Hall. apply Hall in Hin. lia.
    + rewrite map_app; simpl.
      apply NoDup_app; [exact Hcode|repeat constructor; easy|].
      intros c' Hc [<-|[]].
      apply in_map_iff in Hc. destruct Hc as (l & Hl & Hin).
      now elim (E l).
    + apply Forall_app. split.
      * eapply Forall_impl; [|exact Hall]. simpl. intros; lia.
      * repeat constructor; simpl; lia.
  - repeat split; simpl.
    + now apply NoDup_map_filter.
    + now apply NoDup_map_filter.
    + rewrite Forall_forall in *. intros l Hl.
      apply filter_In in Hl. now apply Hall.
  - repeat split; simpl.
    + rewrite map_map. erewrite map_ext; [exact Hid|].
      intro l. unfold visit_id. now destruct (has_id i l).
    + rewrite map_map. erewrite map_ext; [exact Hcode|].
      intro l. unfold visit_id. now destruct (has_id i l).
    + rewrite Forall_forall in *. intros l' Hl'.
      apply in_map_iff in Hl'. destruct Hl' as (l & <- & Hin).
      apply Hall in Hin. unfold visit_id. destruct (has_id i l); simpl; lia.
Qed.

(** *** Awaits that nothing disturbs *)

Lemma run_query_alone (q : statement) (w : world) :
  ahead w = [] ->
  run (query q) w
  = (match fst (exec_statement (clock w) q (db w)) with
     | inl e => Uncaught e
     | inr x => Returned x
     end,
     after q (snd (exec_statement (clock w) q (db w))) w).
Proof.
  intro H. unfold query, after. cbn [run]. rewrite H.
  unfold interfere, advance, with_db, sent, commit_all.
  cbn. rewrite Z.add_0_r, H.
  destruct (exec_statement (clock w) q (db w)) as [[e|x] s']; reflexivity.
Qed.

(** The allocation loop when nothing disturbs it: it leaves the table as
    it is, and a code it returns is free. *)
Lemma run_generate_unique_alone :
  forall fuel w,
    ahead w = [] ->
    exists w',
      db w' = db w /\ clock w' = clock w /\ ahead w' = []
      /\ (run (generate_unique fuel) w = (Spinning, w')
          \/ exists c, run (generate_unique fuel) w = (Returned c, w')
                       /\ taken c (db w) = false).
Proof.
  induction fuel as [|fuel IH]; intros w Hw.
  - exists w. repeat split; auto.
  - cbn [generate_unique]. rewrite run_bind, run_generateCode.
    rewrite run_bind, run_query_alone by exact Hw.
    cbn [exec_statement fst snd answer rows].
    rewrite filter_length_pos.
    set (c := picks (entropy w) (drawn w) 6).
    set (w1 := after (SelectIdByCode c) (db w) (take_draws 6 w)).
    change (existsb (has_code c) (links (db (take_draws 6 w))))
      with (taken c (db w)).
    destruct (taken c (db w)) eqn:E.
    + destruct (IH w1 eq_refl) as (w' & Hdb & Hclk & Hah & Hrun).
      exists w'. repeat split; auto.
    + exists w1. repeat split. right. exists c. now split.
Qed.

Section HandlerFacts.

Variable BASE_URL : string.
Variable VERSION : string.
Variable URL_parses : string -> bool.

Local Abbreviation post_links' := (post_links BASE_URL URL_parses).
Local Abbreviation serve' := (serve BASE_URL VERSION URL_parses).
Local Abbreviation handler' := (handler BASE_URL VERSION URL_parses).
Local Abbreviation serve_all' := (serve_all BASE_URL VERSION URL_parses).

(** The insertion of POST /api/links, from the INSERT to the response,
    before the [catch]. *)
Lemma run_insert_alone (c u : string) (w : world) :
  ahead w = [] ->
  run (result <- query (InsertLink c u) ;;
       link <- first_row result ;;
       Ret (Json 201 (LinkJson link (short_url BASE_URL (code link))))) w
  = if taken c (db w)
    then (Uncaught unique_violation, after (InsertLink c u) (db w) w)
    else (Returned (Json 201 (LinkJson (created c u w)
                                       (short_url BASE_URL c))),
          after (InsertLink c u) (inserted c u w) w).
Proof.
  intro Hw. rewrite run_bind, run_query_alone by exact Hw.
  cbn [exec_statement]. fold (taken c (db w)).
  destruct (taken c (db w)); reflexivity.
Qed.

Lemma run_post_links_explicit (fuel : nat) (u c : string) (w : world) :
  ahead w = [] ->
  u <> "" -> URL_parses u = true -> c <> "" -> isValidCode c = true ->
  run (post_links' fuel (Some u) (Some c)) w
  = if taken c (db w)
    then (Returned (Json 409 (Message "Code already exists")),
          after (InsertLink c u) (db w) w)
    else (Returned (Json 201 (LinkJson (created c u w)
                                       (short_url BASE_URL c))),
          after (InsertLink c u) (inserted c u w) w).
Proof.
  intros Hw Hu Hp Hc Hv. unfold post_links, isValidUrl.
  destruct u as [|a u]; [easy|]. destruct c as [|b c]; [easy|].
  cbn [truthy to_string negb andb]. rewrite Hp, Hv. cbn [negb].
  rewrite run_try_catch. cbn [bind].
  rewrite run_insert_alone by exact Hw.
  destruct (taken _ (db w)); reflexivity.
Qed.

Lemma run_post_links_generated (fuel : nat) (u : string)
      (code_ : option string) (w : world) :
  ahead w = [] ->
  u <> "" -> URL_parses u = true -> truthy code_ = false ->
  exists w1,
    db w1 = db w /\ clock w1 = clock w /\ ahead w1 = []
    /\ (run (post_links' fuel (Some u) code_) w = (Spinning, w1)
        \/ exists c,
             taken c (db w) = false
             /\ run (post_links' fuel (Some u) code_) w
                = (Returned (Json 201 (LinkJson (created c u w1)
                                                (short_url BASE_URL c))),
                   after (InsertLink c u) (inserted c u w1) w1)).
Proof.
  intros Hw Hu Hp Hc. unfold post_links, isValidUrl.
  destruct u as [|a u]; [easy|].
  cbn [truthy to_string negb]. rewrite Hp, Hc. cbn [negb andb].
  rewrite run_try_catch, run_bind.
  destruct (run_generate_unique_alone fuel w Hw)
    as (w1 & Hdb & Hclk & Hah & [Hrun | (c & Hrun & Hfree)]);
    exists w1; repeat split; auto; rewrite Hrun.
  - now left.
  - right. exists c. split; [exact Hfree|].
    rewrite run_insert_alone by exact Hah.
    unfold taken in *. rewrite Hdb, Hfree. reflexivity.
Qed.

Lemma run_post_links_invalid (fuel : nat) (url code_ : option string)
      (w : world) :
  truthy url = false \/ URL_parses (to_string url) = false
  \/ (truthy code_ = true /\ isValidCode (to_string code_) = false) ->
  exists m, run (post_links' fuel url code_) w
            = (Returned (Json 400 (Message m)), w).
Proof.
  intro H. unfold post_links, isValidUrl.
  destruct (truthy url); [|eexists; reflexivity].
  destruct (URL_parses (to_string url)); [|eexists; reflexivity].
  destruct H as [H|[H|[H1 H2]]]; try discriminate.
  rewrite H1, H2. eexists; reflexivity.
Qed.

Lemma run_delete_link_alone (c : string) (w : world) :
  ahead w = [] -> isValidCode c = true ->
  run (delete_link c) w
  = (Returned (if taken c (db w) then Empty 204
               else Json 404 (Message "Code not found")),
     after (DeleteByCode c)
           {| links := filter (fun l => negb (has_code c l)) (links (db w));
              next_id := next_id (db w) |} w).
Proof.
  intros Hw Hv. unfold delete_link. rewrite Hv. cbn [negb].
  rewrite run_try_catch, run_bind, run_query_alone by exact Hw.
  cbn [exec_statement fst snd rowCount].
  rewrite filter_length_zero. fold (taken c (db w)).
  destruct (taken c (db w)); reflexivity.
Qed.

Lemma run_get_code_alone (c : string) (w : world) :
  ahead w = [] -> isValidCode c = true -> c <> "healthz" ->
  run (get_code c) w
  = match filter (has_code c) (links (db w)) with
    | [] => (Returned (Send 404 "Short URL not found"),
             after (SelectIdUrlByCode c) (db w) w)
    | l :: _ =>
        (Returned (Redirect 302 (original_url l)),
         after (UpdateClicksById (id l))
               {| links := map (visit_id (clock w) (id l)) (links (db w));
                  next_id := next_id (db w) |}
               (after (SelectIdUrlByCode c) (db w) w))
    end.
Proof.
  intros Hw Hv Hh. unfold get_code.
  replace (String.eqb c "api") with false
    by (destruct (String.eqb_spec c "api") as [->|]; [discriminate Hv|easy]).
  replace (String.eqb c "healthz") with false
    by (now destruct (String.eqb_spec c "healthz")).
  rewrite Hv. cbn [orb negb].
  rewrite run_try_catch, run_bind, run_query_alone by exact Hw.
  cbn [exec_statement fst snd answer rows].
  destruct (filter (has_code c) (links (db w))) as [|l ls]; [reflexivity|].
  cbn [List.length Nat.eqb]. rewrite run_bind.
  cbn [first_row rows answer run].
  rewrite run_bind, run_query_alone by reflexivity.
  reflexivity.
Qed.


Lemma run_get_links_alone (w : world) :
  ahead w = [] ->
  run (get_links BASE_URL) w
  = (Returned (Json 200 (LinksJson
       (map (fun row => (row, short_url BASE_URL (code row)))
            (newest_first (links (db w)))))),
     after SelectAll (db w) w).
Proof.
  intro Hw. unfold get_links.
  now rewrite run_try_catch, run_bind, run_query_alone by exact Hw.
Qed.

Lemma run_get_link_stats_alone (c : string) (w : world) :
  ahead w = [] -> isValidCode c = true ->
  run (get_link_stats BASE_URL c) w
  = (Returned match filter (has_code c) (links (db w)) with
              | [] => Json 404 (Message "Code not found")
              | l :: _ => Json 200 (LinkJson l (short_url BASE_URL (code l)))
              end,
     after (SelectStatsByCode c) (db w) w).
Proof.
  intros Hw Hv. unfold get_link_stats. rewrite Hv. cbn [negb].
  rewrite run_try_catch, run_bind, run_query_alone by exact Hw.
  cbn [exec_statement fst snd answer rows].
  now destruct (filter (has_code c) (links (db w))).
Qed.

(** Every request body is rejected as invalid, or asks for a well-formed
    code of its own, or leaves the code to the generator. *)
Lemma request_cases (url code_ : option string) :
  (truthy url = false \/ URL_parses (to_string url) = false
   \/ (truthy code_ = true /\ isValidCode (to_string code_) = false))
  \/ exists u, url = Some u /\ u <> "" /\ URL_parses u = true
       /\ (truthy code_ = false
           \/ exists c, code_ = Some c /\ c <> "" /\ isValidCode c = true).
Proof.
  destruct url as [[|a u]|]; try (left; left; reflexivity).
  destruct (URL_parses (String a u)) eqn:Hp; [|left; right; left; exact Hp].
  destruct code_ as [[|b c]|].
  - right. eexists. repeat split; eauto. easy.
  - destruct (isValidCode (String b c)) eqn:Hv.
    + right. eexists. repeat split; eauto; try easy.
      right. eexists. repeat split; eauto. easy.
    + left. right. right. now split.
  - right. eexists. repeat split; eauto. easy.
Qed.

(** What one served operation does to the table. *)
Lemma serve_effect (fuel : nat) (o : operation) (w : world) :
  effect w o (fst (serve' fuel o w)) (db (snd (serve' fuel o w)))
  /\ clock (snd (serve' fuel o w)) = clock w.
Proof.
  unfold serve. destruct o as [|url code_| |c|c|c]; cbn [handler].
  - split; [exact (effect_none _ _ _)|reflexivity].
  - destruct (request_cases url code_)
      as [Hbad | (u & -> & Hu & Hp & [Hgen | (c & -> & Hc & Hv)])].
    + destruct (run_post_links_invalid fuel url code_ (alone w) Hbad)
        as (m & ->).
      split; [exact (effect_none _ _ _)|reflexivity].
    + destruct (run_post_links_generated fuel u code_ (alone w) eq_refl Hu Hp Hgen)
        as (w1 & Hdb & Hclk & Hah & [-> | (c & Hfree & ->)]).
      * cbn [fst snd]. rewrite Hdb, Hclk.
        split; [exact (effect_none _ _ _)|reflexivity].
      * cbn [fst snd after db clock]. unfold inserted, created.
        rewrite Hdb, Hclk.
        split; [now apply (effect_insert w)|reflexivity].
    + rewrite run_post_links_explicit by easy.
      destruct (taken c (db (alone w))) eqn:E; cbn [fst snd after db clock].
      * split; [exact (effect_none _ _ _)|reflexivity].
      * split; [now apply (effect_insert w)|reflexivity].
  - rewrite run_get_links_alone by reflexivity.
    split; [exact (effect_none _ _ _)|reflexivity].
  - destruct (isValidCode c) eqn:Hv.
    + rewrite run_get_link_stats_alone by easy.
      split; [exact (effect_none _ _ _)|reflexivity].
    + unfold get_link_stats. rewrite Hv.
      split; [exact (effect_none _ _ _)|reflexivity].
  - destruct (isValidCode c) eqn:Hv.
    + rewrite run_delete_link_alone by easy.
      split; [exact (effect_delete w c _)|reflexivity].
    + unfold delete_link. rewrite Hv.
      split; [exact (effect_none _ _ _)|reflexivity].
  - destruct (String.eqb_spec c "healthz") as [->|Hh];
      [split; [exact (effect_none _ _ _)|reflexivity]|].
    destruct (isValidCode c) eqn:Hv.
    + rewrite run_get_code_alone by easy.
      destruct (filter (has_code c) (links (db (alone w)))) as [|l ls] eqn:E.
      * split; [exact (effect_none _ _ _)|reflexivity].
      * split; [exact (effect_visit w c l ls E)|reflexivity].
    + unfold get_code. rewrite Hv.
      destruct (String.eqb c "api" || String.eqb c "healthz");
        (split; [exact (effect_none _ _ _)|reflexivity]).
Qed.

Lemma NoDup_map_eq {A B : Type} (f : A -> B) (ls : list A) (x y : A) :
  NoDup (map f ls) -> In x ls -> In y ls -> f x = f y -> x = y.
Proof.
  induction ls as [|z ls IH]; simpl; intros Hnd Hx Hy Hf; [easy|].
  inversion Hnd as [|? ? Hnotin Hnd']; subst.
  destruct Hx as [->|Hx], Hy as [->|Hy]; auto.
  - elim Hnotin. rewrite Hf. now apply in_map.
  - elim Hnotin. rewrite <- Hf. now apply in_map.
Qed.

Lemma same_identity_refl (l : link) : same_identity l l.
Proof. now repeat split. Qed.

Lemma effect_rows (w : world) (o : operation) (r : outcome response)
      (s' : store) :
  store_ok (db w) -> effect w o r s' ->
  store_ok s' /\ (next_id (db w) <= next_id s')%Z
  /\ forall l', In l' (links s') -> provenance w o r l'.
Proof.
  intros Hok He.
  destruct He as [o r|url c c' u r Hfree Hr|c r|c l ls Hl].
  - repeat split; [apply Hok..|lia|].
    intros l' Hin. left. exists l'.
    repeat split; auto.
  - split; [|split; [simpl; lia|]].
    + pose proof (exec_statement_ok (clock w) (InsertLink c' u) _ Hok) as H.
      cbn [exec_statement] in H. fold (taken c' (db w)) in H.
      now rewrite Hfree in H.
    + cbn [links]. intros l' Hin. apply in_app_or in Hin.
      destruct Hin as [Hin|[<-|[]]].
      * left. exists l'. repeat split; auto.
      * right. repeat split; eauto.
  - split; [|split; [simpl; lia|]].
    + exact (exec_statement_ok (clock w) (DeleteByCode c) _ Hok).
    + cbn [links]. intros l' Hin. apply filter_In in Hin.
      left. exists l'. repeat split; tauto.
  - split; [|split; [simpl; lia|]].
    + exact (exec_statement_ok (clock w) (UpdateClicksById (id l)) _ Hok).
    + cbn [links]. intros l' Hin. apply in_map_iff in Hin.
      destruct Hin as (x & <- & Hin). left. exists x.
      split; [exact Hin|]. split; [apply visit_id_same_identity|].
      unfold visit_id. destruct (has_id (id l) x) eqn:E; [|now left].
      right. apply has_id_true in E.
      destruct (lookup_head _ _ _ _ Hl) as [Hlin Hc].
      assert (x = l) as ->
        by (destruct Hok as [Hid _]; eapply NoDup_map_eq; eauto).
      now rewrite Hc.
Qed.

Lemma serve_rows (fuel : nat) (o : operation) (w : world) :
  store_ok (db w) ->
  store_ok (db (snd (serve' fuel o w)))
  /\ (next_id (db w) <= next_id (db (snd (serve' fuel o w))))%Z
  /\ forall l', In l' (links (db (snd (serve' fuel o w)))) ->
                provenance w o (fst (serve' fuel o w)) l'.
Proof.
  intro Hok. destruct (serve_effect fuel o w) as [He _].
  exact (effect_rows _ _ _ _ Hok He).
Qed.


Lemma serve_row_same_id (fuel : nat) (o : operation) (w : world)
      (l l' : link) :
  store_ok (db w) ->
  In l (links (db w)) ->
  In l' (links (db (snd (serve' fuel o w)))) ->
  id l' = id l ->
  l' = l
  \/ (l' = visit (clock w) l /\ o = Resolve (code l)
      /\ fst (serve' fuel o w) = Returned (Redirect 302 (original_url l))).
Proof.
  intros Hok Hin Hin' Hid.
  destruct (serve_rows fuel o w Hok) as (_ & _ & Hrows).
  destruct (Hrows l' Hin')
    as [(l0 & Hin0 & (Hid0 & _) & H) | (Hnew & _)].
  - assert (l0 = l) as ->
      by (destruct Hok as [Hnd _]; eapply NoDup_map_eq; eauto; congruence).
    exact H.
  - destruct Hok as (_ & _ & Hall). rewrite Forall_forall in Hall.
    apply Hall in Hin. lia.
Qed.

(** An identity that was handed out and is no longer in the table never
    comes back. *)
Lemma serve_all_absent (fuel : nat) (i : Z) :
  forall os w,
    store_ok (db w) -> (i < next_id (db w))%Z ->
    (forall x, In x (links (db w)) -> id x <> i) ->
    forall x, In x (links (db (serve_all' fuel os w))) -> id x <> i.
Proof.
  induction os as [|o os IH]; intros w Hok Hi Habs; [exact Habs|].
  cbn [serve_all].
  destruct (serve_rows fuel o w Hok) as (Hok1 & Hnext & Hrows).
  apply IH; [exact Hok1|lia|].
  intros x Hx.
  destruct (Hrows x Hx) as [(l0 & Hin0 & (Hid0 & _) & _) | (Hnew & _)].
  - rewrite Hid0. now apply Habs.
  - lia.
Qed.

Lemma serve_all_ok (fuel : nat) :
  forall os w, store_ok (db w) -> store_ok (db (serve_all' fuel os w)).
Proof.
  induction os as [|o os IH]; intros w Hok; [exact Hok|].
  cbn [serve_all]. apply IH. now apply serve_rows.
Qed.

(** A relation between the states of a record that holds over every
    single operation holds over every sequence of operations. *)
Lemma serve_all_rows (fuel : nat) (R : link -> link -> Prop) :
  (forall l, R l l) ->
  (forall a b c, R a b -> R b c -> R a c) ->
  (forall o w l l',
      store_ok (db w) -> In l (links (db w)) ->
      In l' (links (db (snd (serve' fuel o w)))) -> id l' = id l -> R l l') ->
  forall os w l l',
    store_ok (db w) -> In l (links (db w)) ->
    In l' (links (db (serve_all' fuel os w))) -> id l' = id l -> R l l'.
Proof.
  intros Hrefl Htrans Hstep.
  induction os as [|o os IH]; intros w l l' Hok Hin Hin' Hid.
  - assert (l' = l) as ->
      by (destruct Hok as [Hnd _]; eapply NoDup_map_eq; eauto).
    apply Hrefl.
  - cbn [serve_all] in Hin'.
    destruct (serve_rows fuel o w Hok) as (Hok1 & Hnext & _).
    destruct (existsb (has_id (id l)) (links (db (snd (serve' fuel o w)))))
      eqn:E.
    + apply existsb_exists in E. destruct E as (l1 & Hin1 & Hid1).
      apply has_id_true in Hid1.
      apply Htrans with l1; [now apply (Hstep o w)|].
      apply (IH (snd (serve' fuel o w))); auto. congruence.
    + exfalso.
      apply (serve_all_absent fuel (id l) os (snd (serve' fuel o w)))
        with (x := l'); auto.
      * destruct Hok as (_ & _ & Hall). rewrite Forall_forall in Hall.
        apply Hall in Hin. lia.
      * intros x Hx Hxid.
        assert (existsb (has_id (id l))
                        (links (db (snd (serve' fuel o w)))) = true)
          by (apply existsb_exists; exists x; split; auto;
              now apply has_id_true).
        congruence.
Qed.

(** *** Awaits among other requests *)

Lemma run_query_tick (q : statement) (w : world) (t : tick)
      (rest : list tick) :
  ahead w = t :: rest -> fault t = None ->
  run (query q) w
  = (match fst (exec_statement (clock (interfere t w)) q
                               (db (interfere t w))) with
     | inl e => Uncaught e
     | inr x => Returned x
     end,
     with_db (snd (exec_statement (clock (interfere t w)) q
                                  (db (interfere t w))))
             (sent q (interfere t w))).
Proof.
  intros Hw Hf. unfold query. cbn [run]. rewrite Hw. cbn [hd].
  rewrite Hf. cbn [sent clock db].
  destruct (exec_statement _ q _) as [[e|x] s']; reflexivity.
Qed.

Lemma run_query_fault (q : statement) (w : world) (t : tick)
      (rest : list tick) (e : exn) :
  ahead w = t :: rest -> fault t = Some e ->
  run (query q) w = (Uncaught e, sent q (interfere t w)).
Proof.
  intros Hw Hf. unfold query. cbn [run]. rewrite Hw. cbn [hd].
  now rewrite Hf.
Qed.

Lemma interfere_quiet (w : world) : interfere quiet w = w.
Proof.
  unfold interfere, advance, with_db, commit_all. cbn.
  rewrite Z.add_0_r. now destruct w.
Qed.

(** *** The allocation loop, candidate by candidate *)

Lemma candidate_after_lookup (q : statement) (s : store) (w : world)
      (k : nat) :
  candidate (after q s (take_draws 6 w)) k = candidate w (S k).
Proof. unfold candidate. cbn [entropy drawn after take_draws]. f_equal. lia. Qed.

Lemma lookups_S (w : world) (n : nat) :
  lookups w (S n)
  = SelectIdByCode (candidate w 0)
    :: map (fun k => SelectIdByCode (candidate w (S k))) (seq 0 n).
Proof.
  unfold lookups. cbn [seq map]. f_equal.
  now rewrite <- seq_shift, map_map.
Qed.

Lemma run_generate_unique_nth :
  forall n fuel w,
    ahead w = [] -> (n < fuel)%nat ->
    (forall k, (k < n)%nat -> taken (candidate w k) (db w) = true) ->
    taken (candidate w n) (db w) = false ->
    run (generate_unique fuel) w
    = (Returned (candidate w n), searched (S n) w).
Proof.
  induction n as [|n IH]; intros fuel w Hw Hfuel Htaken Hfree;
    (destruct fuel as [|fuel]; [lia|]);
    cbn [generate_unique]; rewrite run_bind, run_generateCode;
    rewrite run_bind, run_query_alone by exact Hw;
    cbn [exec_statement fst snd answer rows];
    rewrite filter_length_pos;
    change (picks (entropy w) (drawn w) 6) with (candidate w 0);
    change (existsb (has_code (candidate w 0))
                    (links (db (take_draws 6 w))))
      with (taken (candidate w 0) (db w)).
  - rewrite Hfree. reflexivity.
  - rewrite (Htaken 0%nat) by lia. cbv beta iota.
    change (db (take_draws 6 w)) with (db w).
    set (w1 := after (SelectIdByCode (candidate w 0)) (db w)
                     (take_draws 6 w)).
    rewrite (IH fuel w1); [|reflexivity|lia| |].
    + unfold w1. rewrite candidate_after_lookup. f_equal.
      unfold searched. cbn [db clock entropy drawn log after take_draws].
      f_equal; [lia|].
      rewrite <- app_assoc. f_equal. rewrite (lookups_S w (S n)).
      cbn [app]. f_equal. unfold lookups. apply map_ext.
      intro k. now rewrite candidate_after_lookup.
    + intros k Hk. unfold w1. rewrite candidate_after_lookup.
      apply Htaken. lia.
    + unfold w1. now rewrite candidate_after_lookup.
Qed.

(** *** Statements, whoever sends them *)

Lemma commit_all_replay (now : Z) (qs : list statement) :
  forall s, commit_all now qs s = replay (map (pair now) qs) s.
Proof. induction qs as [|q qs IH]; intro s; simpl; [reflexivity|apply IH]. Qed.

Lemma replay_app (qs qs' : list (Z * statement)) (s : store) :
  replay (qs ++ qs') s = replay qs' (replay qs s).
Proof. unfold replay. apply fold_left_app. Qed.

(** The table after a run is the table before it with some statements
    committed: those of the handler that did not fail and those of the
    other requests. *)
Lemma run_replays {A : Type} (p : prog A) :
  forall w, exists qs, db (snd (run p w)) = replay qs (db w).
Proof.
  induction p as [a|e|q k IH|k IH|]; intro w;
    try (exists []; reflexivity).
  - cbn [run].
    set (t := hd quiet (ahead w)).
    set (w1 := sent q (interfere t w)).
    assert (Hw1 : db w1 = replay (map (pair (clock w1)) (others t)) (db w))
      by (unfold w1; cbn [db sent interfere with_db advance clock];
          apply commit_all_replay).
    destruct (fault t) as [e|].
    + destruct (IH (inl e) w1) as (qs & Hqs).
      exists (map (pair (clock w1)) (others t) ++ qs)%list.
      now rewrite replay_app, <- Hw1.
    + destruct (exec_statement (clock w1) q (db w1)) as [r s'] eqn:E.
      destruct (IH r (with_db s' w1)) as (qs & Hqs).
      exists (map (pair (clock w1)) (others t) ++ (clock w1, q) :: qs)%list.
      rewrite replay_app, <- Hw1. cbn [replay fold_left fst snd].
      rewrite E. exact Hqs.
  - cbn [run]. destruct (IH (entropy w (drawn w)) (take_draws 1 w)) as (qs & H).
    now exists qs.
Qed.

Lemma exec_statement_row (now : Z) (q : statement) (s : store) (l l' : link) :
  store_ok s ->
  In l (links s) -> In l' (links (snd (exec_statement now q s))) ->
  id l' = id l ->
  l' = l \/ (l' = visit now l /\ q = UpdateClicksById (id l)).
Proof.
  intros Hok Hin Hin' Hid.
  assert (Hsame : forall x, In x (links s) -> id x = id l -> x = l).
  { intros x Hx Hxid. destruct Hok as [Hnd _]. eapply NoDup_map_eq; eauto. }
  destruct q as [c|c url| |c|c|c|i]; cbn [exec_statement snd links] in Hin';
    try (left; now apply Hsame).
  - destruct (existsb (has_code c) (links s)); cbn [snd links] in Hin';
      [left; now apply Hsame|].
    apply in_app_or in Hin'. destruct Hin' as [Hin'|[<-|[]]];
      [left; now apply Hsame|].
    destruct Hok as (_ & _ & Hall). rewrite Forall_forall in Hall.
    apply Hall in Hin. cbn [id new_link] in Hid. lia.
  - apply filter_In in Hin'. left. now apply Hsame.
  - apply in_map_iff in Hin'. destruct Hin' as (x & <- & Hx).
    unfold visit_id in *. destruct (has_id i x) eqn:E.
    + apply has_id_true in E. cbn [id visit] in Hid.
      rewrite (Hsame x Hx Hid) in *. right. now rewrite E.
    + left. now apply Hsame.
Qed.

Lemma exec_statement_next_id (now : Z) (q : statement) (s : store) :
  (next_id s <= next_id (snd (exec_statement now q s)))%Z.
Proof.
  destruct q as [c|c url| |c|c|c|i]; cbn [exec_statement snd next_id];
    try lia.
  destruct (existsb (has_code c) (links s)); simpl; lia.
Qed.

Lemma exec_statement_absent (now : Z) (q : statement) (s : store) (i : Z) :
  (i < next_id s)%Z ->
  (forall x, In x (links s) -> id x <> i) ->
  forall x, In x (links (snd (exec_statement now q s))) -> id x <> i.
Proof.
  intros Hi Habs x Hx.
  destruct q as [c|c url| |c|c|c|j]; cbn [exec_statement snd links] in Hx;
    try (now apply Habs).
  - destruct (existsb (has_code c) (links s)); cbn [snd links] in Hx;
      [now apply Habs|].
    apply in_app_or in Hx. destruct Hx as [Hx|[<-|[]]]; [now apply Habs|].
    cbn [id new_link]. lia.
  - apply filter_In in Hx. now apply Habs.
  - apply in_map_iff in Hx. destruct Hx as (y & <- & Hy).
    unfold visit_id. destruct (has_id j y); cbn [id visit]; now apply Habs.
Qed.

Lemma replay_ok :
  forall qs s, store_ok s -> store_ok (replay qs s).
Proof.
  induction qs as [|[t q] qs IH]; intros s Hs; [exact Hs|].
  apply IH. now apply exec_statement_ok.
Qed.

Lemma replay_absent (i : Z) :
  forall qs s,
    (i < next_id s)%Z ->
    (forall x, In x (links s) -> id x <> i) ->
    forall x, In x (links (replay qs s)) -> id x <> i.
Proof.
  induction qs as [|[t q] qs IH]; intros s Hi Habs; [exact Habs|].
  apply IH.
  - pose proof (exec_statement_next_id t q s). simpl. lia.
  - now apply exec_statement_absent.
Qed.

(** A reflexive and transitive relation between the states of a record
    that holds over a visit holds over every sequence of statements. *)
Lemma replay_rows (R : link -> link -> Prop) :
  (forall l, R l l) ->
  (forall a b c, R a b -> R b c -> R a c) ->
  (forall now l, R l (visit now l)) ->
  forall qs s l l',
    store_ok s -> In l (links s) -> In l' (links (replay qs s)) ->
    id l' = id l -> R l l'.
Proof.
  intros Hrefl Htrans Hvisit.
  induction qs as [|[t q] qs IH]; intros s l l' Hok Hin Hin' Hid.
  - assert (l' = l) as ->
      by (destruct Hok as [Hnd _]; eapply NoDup_map_eq; eauto).
    apply Hrefl.
  - cbn [replay fold_left fst snd] in Hin'.
    set (s1 := snd (exec_statement t q s)) in *.
    destruct (existsb (has_id (id l)) (links s1)) eqn:E.
    + apply existsb_exists in E. destruct E as (l1 & Hin1 & Hid1).
      apply has_id_true in Hid1.
      apply Htrans with l1.
      * destruct (exec_statement_row t q s l l1 Hok Hin Hin1 Hid1)
          as [-> | [-> _]]; auto.
      * apply (IH s1); auto; [now apply exec_statement_ok|congruence].
    + exfalso.
      apply (replay_absent (id l) qs s1) with (x := l'); auto.
      * pose proof (exec_statement_next_id t q s).
        destruct Hok as (_ & _ & Hall). rewrite Forall_forall in Hall.
        apply Hall in Hin. fold s1 in H. lia.
      * intros x Hx Hxid.
        assert (existsb (has_id (id l)) (links s1) = true)
          by (apply existsb_exists; exists x; split; auto;
              now apply has_id_true).
        congruence.
Qed.

(** Whatever surrounds the awaits of a program, a record that is still in
    the table after the run is related to what it was before. *)
Lemma run_rows {A : Type} (R : link -> link -> Prop) (p : prog A) (w : world)
      (l l' : link) :
  (forall l, R l l) ->
  (forall a b c, R a b -> R b c -> R a c) ->
  (forall now l, R l (visit now l)) ->
  store_ok (db w) -> In l (links (db w)) ->
  In l' (links (db (snd (run p w)))) ->
  id l' = id l -> R l l'.
Proof.
  intros Hrefl Htrans Hvisit Hok Hin Hin' Hid.
  destruct (run_replays p w) as (qs & Hqs). rewrite Hqs in Hin'.
  exact (replay_rows R Hrefl Htrans Hvisit qs (db w) l l' Hok Hin Hin' Hid).
Qed.

(** *** Allocation *)

(** C3 (amended): if the destination is missing, empty or not a parseable
    absolute URL, or if a non-empty requested code is provided that does
    not match [A-Za-z0-9]{6,8}, Allocate answers Invalid (400) and sends
    nothing to the store: the world, with the table and the log of
    statements, is unchanged.  (An empty requested code is handled as an
    absent one.) *)
Theorem allocate_invalid_no_store_operation
        (fuel : nat) (url code_ : option string) (w : world) :
  match url with
  | Some u => u = "" \/ URL_parses u = false
  | None => True
  end
  \/ (exists c, code_ = Some c /\ c <> "" /\ isValidCode c = false) ->
  exists m,
    run (post_links' fuel url code_) w
    = (Returned (Json 400 (Message m)), w).
Proof.
  intro H. apply run_post_links_invalid.
  destruct H as [H | (c & -> & Hc & Hv)].
  - destruct url as [[|a u]|]; try (now left).
    destruct H as [H|H]; [discriminate H|]. right. now left.
  - right. right. destruct c as [|b c]; [easy|]. now split.
Qed.

(** C1 (amended): an Allocate call without a requested code generates a
    fresh candidate as long as the lookup finds the candidate taken, and
    then attempts one insertion of the first candidate found free.  When
    no other request commits in between, that insertion commits and the
    new link is returned.  A uniqueness conflict the store reports on the
    insertion itself (the code was inserted by another request after the
    lookup) is not retried: Allocate answers Conflict (409). *)
Theorem allocate_generated_code
        (fuel : nat) (u : string) (code_ : option string) (w : world) :
  u <> "" -> URL_parses u = true -> truthy code_ = false ->
  (forall n,
      ahead w = [] -> (n < fuel)%nat ->
      (forall k, (k < n)%nat -> taken (candidate w k) (db w) = true) ->
      taken (candidate w n) (db w) = false ->
      run (post_links' fuel (Some u) code_) w
      = (Returned (Json 201 (LinkJson
                               (created (candidate w n) u w)
                               (short_url BASE_URL (candidate w n)))),
         after (InsertLink (candidate w n) u)
               (inserted (candidate w n) u w) (searched (S n) w)))
  /\ (forall t rest,
         ahead w = quiet :: t :: rest -> fault t = None ->
         (0 < fuel)%nat ->
         taken (candidate w 0) (db w) = false ->
         taken (candidate w 0) (db (interfere t w)) = true ->
         fst (run (post_links' fuel (Some u) code_) w)
         = Returned (Json 409 (Message "Code already exists"))
         /\ db (snd (run (post_links' fuel (Some u) code_) w))
            = db (interfere t w)).
Proof.
  intros Hu Hp Hc.
  assert (Hrun : forall w0,
             run (post_links' fuel (Some u) code_) w0
             = match
                 run (finalCode <- generate_unique fuel ;;
                      result <- query (InsertLink finalCode u) ;;
                      link <- first_row result ;;
                      Ret (Json 201 (LinkJson link
                             (short_url BASE_URL (code link))))) w0
               with
               | (Uncaught e, w') =>
                   (Returned
                      (if match exn_code e with
                          | Some c => String.eqb c "23505"
                          | None => false
                          end
                       then Json 409 (Message "Code already exists")
                       else Json 500 (Message "Server error")), w')
               | r => r
               end).
  { intro w0. unfold post_links, isValidUrl.
    destruct u as [|a u']; [easy|].
    cbn [truthy to_string negb]. rewrite Hp, Hc. cbn [negb andb].
    rewrite run_try_catch.
    destruct (run _ w0) as [[r|e|] w']; try reflexivity.
    now destruct (match exn_code e with Some _ => _ | None => _ end). }
  split.
  - intros n Hw Hn Htaken Hfree.
    rewrite Hrun, run_bind, (run_generate_unique_nth n) by assumption.
    rewrite run_insert_alone by reflexivity.
    change (taken (candidate w n) (db (searched (S n) w)))
      with (taken (candidate w n) (db w)).
    now rewrite Hfree.
  - intros t rest Hw Hf Hfuel Hfree Hrace.
    destruct fuel as [|fuel']; [lia|].
    rewrite Hrun, run_bind. cbn [generate_unique].
    rewrite run_bind, run_generateCode, run_bind.
    rewrite (run_query_tick _ _ quiet (t :: rest)) by easy.
    rewrite interfere_quiet.
    cbn [exec_statement fst snd answer rows].
    rewrite filter_length_pos.
    change (picks (entropy w) (drawn w) 6) with (candidate w 0).
    change (existsb (has_code (candidate w 0))
                    (links (db (take_draws 6 w))))
      with (taken (candidate w 0) (db w)).
    rewrite Hfree. cbv beta iota. cbn [run].
    rewrite run_bind.
    rewrite (run_query_tick _ _ t rest)
      by (first [exact Hf
                |cbn [ahead with_db sent take_draws]; now rewrite Hw]).
    set (w1 := with_db _ _).
    assert (Hdb : db (interfere t w1) = db (interfere t w)) by reflexivity.
    assert (Hclk : clock (interfere t w1) = clock (interfere t w))
      by reflexivity.
    cbn [exec_statement]. fold (taken (candidate w 0) (db (interfere t w1))).
    rewrite Hdb, Hrace. cbn [fst snd db with_db]. now split.
Qed.

(** *** Resolution *)

Lemma get_code_not_reserved (c : string) :
  isValidCode c = true -> c <> "healthz" ->
  String.eqb c "api" || String.eqb c "healthz" = false.
Proof.
  intros Hv Hh.
  destruct (String.eqb_spec c "api") as [->|_]; [discriminate Hv|].
  now destruct (String.eqb_spec c "healthz").
Qed.

(** C2 (amended): for a Resolve call on a code whose record exists, if
    the visit-recording step fails, the resolution fails with it: the
    caller gets a server error (500) and not the destination; Resolve
    itself has then written nothing to the table. *)
Theorem resolve_recording_failure
        (c : string) (w : world) (t1 t2 : tick) (rest : list tick)
        (e : exn) (l : link) (ls : list link) :
  isValidCode c = true -> c <> "healthz" ->
  ahead w = t1 :: t2 :: rest -> fault t1 = None -> fault t2 = Some e ->
  filter (has_code c) (links (db (interfere t1 w))) = l :: ls ->
  run (get_code c) w
  = (Returned (Send 500 "Server error"),
     sent (UpdateClicksById (id l))
          (interfere t2 (sent (SelectIdUrlByCode c) (interfere t1 w)))).
Proof.
  intros Hv Hh Hw Hf1 Hf2 Hl. unfold get_code.
  rewrite get_code_not_reserved, Hv by assumption. cbn [negb].
  rewrite run_try_catch, run_bind.
  rewrite (run_query_tick _ _ t1 (t2 :: rest)) by assumption.
  cbn [exec_statement fst snd answer rows]. rewrite Hl.
  cbn [List.length Nat.eqb]. rewrite run_bind.
  cbn [first_row rows answer run]. rewrite run_bind.
  rewrite (run_query_fault _ _ t2 rest e)
    by (first [exact Hf2
                |cbn [ahead with_db sent interfere advance];
                 now rewrite Hw]).
  reflexivity.
Qed.

(** C4: Resolve checks the format of the code before any access to the
    store and answers a malformed code with 404 (InvalidFormat); a code
    without a record is answered with 404 (NotFound); and when Resolve
    succeeds, the record [l] the lookup by code returned has its counter
    incremented by exactly 1 and its last visit set to the current time,
    by an UPDATE that names the identity [id l] just read (the log), so
    that no other record is touched, also when the code was deleted and
    created again between the lookup and the update. *)
Theorem resolve_counts_visit (fuel : nat) (c : string) (w : world) :
  store_ok (db w) ->
  (isValidCode c = false ->
   forall w0, exists m, run (get_code c) w0 = (Returned (Send 404 m), w0))
  /\ (taken c (db w) = false ->
      status_of_outcome (fst (serve' fuel (Resolve c) w)) = Some 404%nat
      /\ db (snd (serve' fuel (Resolve c) w)) = db w)
  /\ (forall l, In l (links (db w)) -> code l = c ->
      isValidCode c = true -> c <> "healthz" ->
      fst (serve' fuel (Resolve c) w)
      = Returned (Redirect 302 (original_url l)))
  /\ (forall st url,
         fst (serve' fuel (Resolve c) w) = Returned (Redirect st url) ->
         exists l,
           In l (links (db w)) /\ code l = c /\ url = original_url l
           /\ log (snd (serve' fuel (Resolve c) w))
              = (log w ++ [SelectIdUrlByCode c; UpdateClicksById (id l)])%list
           /\ In (visit (clock w) l)
                 (links (db (snd (serve' fuel (Resolve c) w))))
           /\ clicks (visit (clock w) l) = (clicks l + 1)%Z
           /\ last_clicked_at (visit (clock w) l) = Some (clock w)
           /\ (forall x, In x (links (db w)) -> x <> l ->
                         In x (links (db (snd (serve' fuel (Resolve c) w)))))
           /\ List.length (links (db (snd (serve' fuel (Resolve c) w))))
              = List.length (links (db w)))
  /\ (forall l t rest,
         In l (links (db w)) -> code l = c ->
         isValidCode c = true -> c <> "healthz" ->
         ahead w = quiet :: t :: rest -> fault t = None ->
         links (db (snd (run (get_code c) w)))
         = map (visit_id (clock (interfere t w)) (id l))
               (links (db (interfere t w)))).
Proof.
  intro Hok. split; [|split; [|split; [|split]]].
  - intros Hv w0. unfold get_code. rewrite Hv.
    destruct (_ || _); eexists; reflexivity.
  - intro Hfree. unfold serve. cbn [handler].
    destruct (String.eqb_spec c "healthz") as [->|Hh]; [now split|].
    destruct (isValidCode c) eqn:Hv.
    + rewrite run_get_code_alone by easy.
      apply lookup_taken in Hfree. cbn [db alone]. now rewrite Hfree.
    + unfold get_code. rewrite Hv. now destruct (_ || _).
  - intros l Hin Hc Hv Hh. unfold serve. cbn [handler].
    rewrite run_get_code_alone by easy. cbn [db alone].
    destruct Hok as (_ & Hnd & _).
    now rewrite <- Hc, (lookup_unique _ _ Hnd Hin).
  - intros st url Hr. unfold serve in *. cbn [handler] in *.
    destruct (String.eqb_spec c "healthz") as [->|Hh]; [discriminate Hr|].
    destruct (isValidCode c) eqn:Hv;
      [|unfold get_code in Hr; rewrite Hv in Hr;
        destruct (_ || _) in Hr; discriminate Hr].
    rewrite run_get_code_alone in * by easy. cbn [db alone] in *.
    destruct (filter (has_code c) (links (db w))) as [|l ls] eqn:E;
      [discriminate Hr|].
    destruct (lookup_head _ _ _ _ E) as [Hin Hc].
    cbn [fst] in Hr. injection Hr as _ <-.
    exists l. cbn [snd after db links log alone].
    destruct Hok as (Hid & _).
    repeat split; auto.
    + now rewrite <- app_assoc.
    + apply in_map_iff. exists l. split; [|exact Hin].
      unfold visit_id, has_id. now rewrite Z.eqb_refl.
    + intros x Hx Hne. apply in_map_iff. exists x. split; [|exact Hx].
      unfold visit_id. destruct (has_id (id l) x) eqn:Ex; [|reflexivity].
      apply has_id_true in Ex. elim Hne.
      eapply NoDup_map_eq; eauto.
    + apply length_map.
  - intros l t rest Hin Hc Hv Hh Hw Hf. unfold get_code.
    rewrite get_code_not_reserved, Hv by assumption. cbn [negb].
    rewrite run_try_catch, run_bind.
    rewrite (run_query_tick _ _ quiet (t :: rest)) by easy.
    rewrite interfere_quiet.
    cbn [exec_statement fst snd answer rows].
    destruct Hok as (_ & Hnd & _).
    rewrite <- Hc, (lookup_unique _ _ Hnd Hin).
    cbn [List.length Nat.eqb]. rewrite run_bind.
    cbn [first_row rows answer run]. rewrite run_bind.
    rewrite (run_query_tick _ _ t rest)
      by (first [exact Hf|cbn [ahead with_db sent]; now rewrite Hw]).
    reflexivity.
Qed.

(** *** Deletion *)

Lemma taken_after_delete (c : string) (ls : list link) (n : Z) :
  taken c {| links := filter (fun l => negb (has_code c l)) ls;
             next_id := n |} = false.
Proof.
  apply taken_false. cbn [links]. intros l Hin Hc.
  apply filter_In in Hin. destruct Hin as [_ Hn].
  apply has_code_true in Hc. now rewrite Hc in Hn.
Qed.

Lemma delete_absent (c : string) (s : store) :
  taken c s = false ->
  filter (fun l => negb (has_code c l)) (links s) = links s.
Proof.
  unfold taken. induction (links s) as [|x ls IH]; simpl; [easy|].
  destruct (has_code c x); simpl; [discriminate|].
  intro H. now rewrite IH.
Qed.

Lemma isValidCode_nonempty (c : string) : isValidCode c = true -> c <> "".
Proof. now intros H ->. Qed.

(** C9: Delete checks the format of the code first (a malformed code is
    answered without any access to the store); for a well-formed code it
    reports success (204) exactly when a record with that code existed,
    and then the record is removed; a well-formed code without a record
    is reported as not found (404), not as an error, and the table stays
    as it was; and after a Delete, an Allocate with the same explicit
    code succeeds. *)
Theorem delete_then_reuse (fuel : nat) (c : string) (w : world) :
  (isValidCode c = false ->
   forall w0, run (delete_link c) w0
              = (Returned (Json 400 (Message "Invalid code format")), w0))
  /\ (isValidCode c = true ->
      fst (serve' fuel (Delete c) w)
      = Returned (if taken c (db w) then Empty 204
                  else Json 404 (Message "Code not found"))
      /\ links (db (snd (serve' fuel (Delete c) w)))
         = filter (fun l => negb (has_code c l)) (links (db w))
      /\ taken c (db (snd (serve' fuel (Delete c) w))) = false
      /\ (taken c (db w) = false ->
          db (snd (serve' fuel (Delete c) w)) = db w)
      /\ forall u,
          u <> "" -> URL_parses u = true ->
          exists l,
            fst (serve' fuel (Allocate (Some u) (Some c))
                        (snd (serve' fuel (Delete c) w)))
            = Returned (Json 201 (LinkJson l (short_url BASE_URL c)))
            /\ code l = c /\ original_url l = u /\ clicks l = 0%Z
            /\ In l (links (db (snd (serve' fuel
                                       (Allocate (Some u) (Some c))
                                       (snd (serve' fuel (Delete c) w))))))).
Proof.
  split.
  - intros Hv w0. unfold delete_link. now rewrite Hv.
  - intro Hv. unfold serve. cbn [handler].
    rewrite run_delete_link_alone by easy.
    cbn [fst snd db after alone links].
    split; [reflexivity|]. split; [reflexivity|].
    split; [apply taken_after_delete|].
    split.
    + intro Hfree. rewrite (delete_absent _ _ Hfree). now destruct (db w).
    + intros u Hu Hp.
      rewrite run_post_links_explicit;
        [|reflexivity|exact Hu|exact Hp|now apply isValidCode_nonempty
         |exact Hv].
      cbn [db after alone]. rewrite taken_after_delete.
      eexists. split; [reflexivity|].
      repeat split. cbn [snd db after inserted links].
      apply in_or_app. right. now left.
Qed.

(** *** The counter and the frame, over operations and sequences *)

(** C7: the counter of a record is a non-negative integer; it is 0 in a
    record an operation has just created; over one operation it stays as
    it is or grows by exactly 1, and it grows only when the operation is
    the Resolve of the record's own code, answered with the redirect to
    its destination (so never by Allocate, List, Delete or the stats
    lookup); over every sequence of operations it never decreases and
    stays non-negative; and it never decreases over the run of a handler
    whatever the other requests commit meanwhile and whichever of its
    statements fail. *)
Theorem visit_count_monotone (fuel : nat) (o : operation) (w : world) :
  store_ok (db w) ->
  Forall (fun l => (0 <= clicks l)%Z)
         (links (db (snd (serve' fuel o w))))
  /\ (forall l',
         In l' (links (db (snd (serve' fuel o w)))) ->
         (forall l, In l (links (db w)) -> id l <> id l') ->
         clicks l' = 0%Z)
  /\ (forall l l',
         In l (links (db w)) ->
         In l' (links (db (snd (serve' fuel o w)))) ->
         id l' = id l ->
         clicks l' = clicks l
         \/ (clicks l' = (clicks l + 1)%Z /\ o = Resolve (code l)
             /\ fst (serve' fuel o w)
                = Returned (Redirect 302 (original_url l))))
  /\ (forall os l l',
         In l (links (db w)) ->
         In l' (links (db (serve_all' fuel os w))) ->
         id l' = id l ->
         (clicks l <= clicks l')%Z)
  /\ (forall os,
         Forall (fun l => (0 <= clicks l)%Z)
                (links (db (serve_all' fuel os w))))
  /\ (forall ts l l',
         In l (links (db w)) ->
         In l' (links (db (snd (run (handler' fuel o) (amid ts w))))) ->
         id l' = id l ->
         (clicks l <= clicks l')%Z).
Proof.
  intro Hok.
  assert (Hnonneg : forall s, store_ok s ->
                              Forall (fun l => (0 <= clicks l)%Z) (links s)).
  { intros s (_ & _ & Hall). eapply Forall_impl; [|exact Hall].
    now intros l [_ H]. }
  assert (Hstep : forall o0 w0 l l',
             store_ok (db w0) -> In l (links (db w0)) ->
             In l' (links (db (snd (serve' fuel o0 w0)))) ->
             id l' = id l ->
             clicks l' = clicks l
             \/ (clicks l' = (clicks l + 1)%Z /\ o0 = Resolve (code l)
                 /\ fst (serve' fuel o0 w0)
                    = Returned (Redirect 302 (original_url l)))).
  { intros o0 w0 l l' Hok0 Hin Hin' Hid.
    destruct (serve_row_same_id fuel o0 w0 l l' Hok0 Hin Hin' Hid)
      as [-> | (-> & Ho & Hr)]; [now left|right].
    now repeat split. }
  destruct (serve_rows fuel o w Hok) as (Hok1 & _ & Hrows).
  split; [now apply Hnonneg|].
  split; [|split; [|split; [|split]]].
  - intros l' Hin' Hnew.
    destruct (Hrows l' Hin') as [(l & Hin & (Hid & _) & _) | (_ & H0 & _)];
      [|exact H0].
    now elim (Hnew l Hin).
  - intros l l'. now apply Hstep.
  - intros os l l' Hin Hin' Hid.
    refine (serve_all_rows fuel (fun a b => (clicks a <= clicks b)%Z)
                           _ _ _ os w l l' Hok Hin Hin' Hid);
      try (intros; lia).
    intros o0 w0 a b Hok0 Ha Hb Hab.
    destruct (Hstep o0 w0 a b Hok0 Ha Hb Hab) as [H | [H _]]; lia.
  - intro os. apply Hnonneg. now apply serve_all_ok.
  - intros ts l l' Hin Hin' Hid.
    refine (run_rows (fun a b => (clicks a <= clicks b)%Z) _ (amid ts w) l l'
                     _ _ _ Hok Hin Hin' Hid);
      intros; cbn [clicks visit]; lia.
Qed.

Lemma same_identity_trans (a b c : link) :
  same_identity a b -> same_identity b c -> same_identity a c.
Proof.
  unfold same_identity. intros (H1 & H2 & H3 & H4) (K1 & K2 & K3 & K4).
  repeat split; congruence.
Qed.

(** C8: no operation modifies the identity, the code, the destination or
    the creation time of an existing record; the only change any
    operation makes to an existing record is the visit of Resolve (the
    counter and the last visit of the record with that code); and the
    table itself changes only by that visit, by the insertion of one new
    record (Allocate) or by the removal of the records of a code
    (Delete).  The four fields stay the same over every sequence of
    operations, and over the run of a handler whatever the other requests
    commit meanwhile and whichever of its statements fail. *)
Theorem immutable_fields (fuel : nat) (o : operation) (w : world) :
  store_ok (db w) ->
  (forall l l',
      In l (links (db w)) ->
      In l' (links (db (snd (serve' fuel o w)))) ->
      id l' = id l ->
      same_identity l l'
      /\ (l' = l \/ (o = Resolve (code l) /\ l' = visit (clock w) l)))
  /\ (db (snd (serve' fuel o w)) = db w
      \/ (exists u c l,
             o = Allocate u c
             /\ links (db (snd (serve' fuel o w)))
                = (links (db w) ++ [l])%list
             /\ forall x, In x (links (db w)) ->
                          id x <> id l /\ code x <> code l)
      \/ (exists c,
             o = Delete c
             /\ links (db (snd (serve' fuel o w)))
                = filter (fun l => negb (has_code c l)) (links (db w)))
      \/ (exists c l,
             o = Resolve c /\ In l (links (db w)) /\ code l = c
             /\ links (db (snd (serve' fuel o w)))
                = map (visit_id (clock w) (id l)) (links (db w))))
  /\ (forall os l l',
         In l (links (db w)) ->
         In l' (links (db (serve_all' fuel os w))) ->
         id l' = id l ->
         same_identity l l')
  /\ (forall ts l l',
         In l (links (db w)) ->
         In l' (links (db (snd (run (handler' fuel o) (amid ts w))))) ->
         id l' = id l ->
         same_identity l l').
Proof.
  intro Hok.
  assert (Hstep : forall o0 w0 l l',
             store_ok (db w0) -> In l (links (db w0)) ->
             In l' (links (db (snd (serve' fuel o0 w0)))) ->
             id l' = id l ->
             same_identity l l'
             /\ (l' = l
                 \/ (o0 = Resolve (code l) /\ l' = visit (clock w0) l))).
  { intros o0 w0 l l' Hok0 Hin Hin' Hid.
    destruct (serve_row_same_id fuel o0 w0 l l' Hok0 Hin Hin' Hid)
      as [-> | (-> & Ho & _)].
    - split; [apply same_identity_refl|now left].
    - split; [apply visit_same_identity|now right]. }
  split; [|split; [|split]].
  - intros l l'. now apply Hstep.
  - destruct (serve_effect fuel o w) as [He _].
    inversion He as [o0 r0 Hs|url c c' u r0 Hfree Hr Ho Hr0 Hs
                     |c r0 Ho Hr0 Hs|c l ls Hl Ho Hr0 Hs].
    + now left.
    + right. left. exists url, c, (new_link (next_id (db w)) c' u (clock w)).
      repeat split.
      * destruct Hok as (_ & _ & Hall). rewrite Forall_forall in Hall.
        apply Hall in H. cbn [id new_link]. lia.
      * rewrite taken_false in Hfree. now apply Hfree.
    + right. right. left. now exists c.
    + right. right. right. destruct (lookup_head _ _ _ _ Hl) as [Hin Hc].
      now exists c, l.
  - intros os l l' Hin Hin' Hid.
    refine (serve_all_rows fuel same_identity _ _ _ os w l l'
                           Hok Hin Hin' Hid).
    + apply same_identity_refl.
    + apply same_identity_trans.
    + intros o0 w0 a b Hok0 Ha Hb Hab.
      now destruct (Hstep o0 w0 a b Hok0 Ha Hb Hab).
  - intros ts l l' Hin Hin' Hid.
    exact (run_rows same_identity _ (amid ts w) l l'
                    same_identity_refl same_identity_trans
                    visit_same_identity Hok Hin Hin' Hid).
Qed.

(** C10: the string "healthz" has the format of a code and can be
    allocated as an explicit code; but a request to resolve "healthz" (or
    "api") is answered, in every state of the store and whatever the
    other requests do, without any statement sent to the store, by the
    redirect route as well as by the health route; so the counter and
    the last visit of a link with code "healthz" never change, over
    every sequence of operations. *)
Theorem healthz_never_resolved (fuel : nat) :
  isValidCode "healthz" = true
  /\ (forall u w,
         u <> "" -> URL_parses u = true ->
         taken "healthz" (db w) = false ->
         fst (serve' fuel (Allocate (Some u) (Some "healthz")) w)
         = Returned (Json 201 (LinkJson (created "healthz" u w)
                                        (short_url BASE_URL "healthz")))
         /\ In (created "healthz" u w)
               (links (db (snd (serve' fuel
                                  (Allocate (Some u) (Some "healthz")) w))))
         /\ clicks (created "healthz" u w) = 0%Z)
  /\ (forall w,
         run (get_code "healthz") w = (Returned (Send 404 "Not found"), w)
         /\ run (get_code "api") w = (Returned (Send 404 "Not found"), w)
         /\ run (get_healthz VERSION) w
            = (Returned (Json 200 (HealthJson true VERSION)), w))
  /\ (forall os w l l',
         store_ok (db w) ->
         In l (links (db w)) -> code l = "healthz" ->
         In l' (links (db (serve_all' fuel os w))) ->
         id l' = id l ->
         clicks l' = clicks l /\ last_clicked_at l' = last_clicked_at l).
Proof.
  split; [reflexivity|]. split; [|split].
  - intros u w Hu Hp Hfree. unfold serve. cbn [handler].
    rewrite run_post_links_explicit by easy.
    cbn [db alone]. rewrite Hfree. cbn [fst snd db after inserted links].
    repeat split. apply in_or_app. right. now left.
  - intro w. now repeat split.
  - intros os w l l' Hok Hin Hc Hin' Hid.
    enough (H : code l = "healthz" -> l' = l) by (now rewrite H).
    refine (serve_all_rows fuel (fun a b => code a = "healthz" -> b = a)
                           _ _ _ os w l l' Hok Hin Hin' Hid).
    + reflexivity.
    + intros a b c Hab Hbc Ha. rewrite <- (Hab Ha) in *.
      apply Hbc. now rewrite (Hab Ha).
    + intros o0 w0 a b Hok0 Ha Hb Hab Hcode.
      destruct (serve_row_same_id fuel o0 w0 a b Hok0 Ha Hb Hab)
        as [-> | (_ & -> & Hr)]; [reflexivity|].
      rewrite Hcode in Hr. discriminate Hr.
Qed.

End HandlerFacts.

(* ===================================================================== *)
(** ** Further properties of the handlers *)
(* ===================================================================== *)

(** *** Generated codes and the code format *)

Lemma all_chars_alphanumeric_picks (e : nat -> draw) (pos n : nat) :
  (forall k, draw_ok (e k)) ->
  all_chars alphanumeric (picks e pos n) = true.
Proof.
  intro He. destruct (picks_alphabet e He n pos) as [_ H].
  rewrite <- H. apply all_chars_ext. intro c.
  symmetry. apply in_alphabet_alphanumeric.
Qed.

Lemma isValidCode_length_chars (s : string) :
  isValidCode s
  = (6 <=? String.length s)%nat && (String.length s <=? 8)%nat
    && all_chars alphanumeric s.
Proof.
  unfold isValidCode, CODE_REGEX.
  rewrite test_anchored. cbn [RegExp.match_here].
  rewrite match_repeat_to_end.
  f_equal. apply all_chars_ext, code_class_alphanumeric.
Qed.

(** X3: a code that [generateCode] returns passes [isValidCode] exactly
    when the requested length is between 6 and 8; in particular every
    candidate of length 6 that the allocation loop generates is a
    well-formed code. *)
Theorem generateCode_isValidCode (n : nat) (w : world) :
  (forall k, draw_ok (entropy w k)) ->
  exists code_,
    fst (run (generateCode n) w) = Returned code_
    /\ isValidCode code_ = (6 <=? n)%nat && (n <=? 8)%nat.
Proof.
  intro He. rewrite run_generateCode. eexists. split; [reflexivity|].
  rewrite isValidCode_length_chars.
  destruct (picks_alphabet _ He n (drawn w)) as [-> _].
  rewrite all_chars_alphanumeric_picks by exact He.
  apply andb_true_r.
Qed.

Lemma candidate_valid (w : world) (k : nat) :
  (forall j, draw_ok (entropy w j)) -> isValidCode (candidate w k) = true.
Proof.
  intro He. unfold candidate. rewrite isValidCode_length_chars.
  destruct (picks_alphabet _ He 6%nat (6 * k + drawn w)%nat) as [-> _].
  now rewrite all_chars_alphanumeric_picks.
Qed.

(** The allocation loop, when nothing disturbs it, returns the first
    candidate that is free, after one lookup per candidate tried; it is
    still running when none of the candidates it was given time for is. *)
Lemma run_generate_unique_first :
  forall fuel w,
    ahead w = [] ->
    (exists n, (n < fuel)%nat
               /\ (forall k, (k < n)%nat ->
                             taken (candidate w k) (db w) = true)
               /\ taken (candidate w n) (db w) = false
               /\ run (generate_unique fuel) w
                  = (Returned (candidate w n), searched (S n) w))
    \/ ((forall k, (k < fuel)%nat -> taken (candidate w k) (db w) = true)
        /\ fst (run (generate_unique fuel) w) = Spinning
        /\ db (snd (run (generate_unique fuel) w)) = db w
        /\ log (snd (run (generate_unique fuel) w))
           = (log w ++ lookups w fuel)%list).
Proof.
  induction fuel as [|fuel IH]; intros w Hw.
  - right. repeat split; [intros k Hk; lia|].
    cbn. now rewrite app_nil_r.
  - destruct (taken (candidate w 0) (db w)) eqn:E0.
    + set (w1 := after (SelectIdByCode (candidate w 0)) (db w)
                       (take_draws 6 w)).
      assert (Hstep : run (generate_unique (S fuel)) w
                      = run (generate_unique fuel) w1).
      { cbn [generate_unique]. rewrite run_bind, run_generateCode.
        rewrite run_bind, run_query_alone by exact Hw.
        cbn [exec_statement fst snd answer rows].
        rewrite filter_length_pos.
        change (picks (entropy w) (drawn w) 6) with (candidate w 0).
        change (existsb (has_code (candidate w 0))
                        (links (db (take_draws 6 w))))
          with (taken (candidate w 0) (db w)).
        now rewrite E0. }
      rewrite Hstep.
      assert (Hshift : forall k, taken (candidate w1 k) (db w1)
                                 = taken (candidate w (S k)) (db w))
        by (intro k; subst w1; now rewrite candidate_after_lookup).
      assert (Hlogs : (log w1 ++ lookups w1 fuel)%list
                      = (log w ++ lookups w (S fuel))%list).
      { subst w1. cbn [log after take_draws].
        rewrite <- app_assoc. f_equal. rewrite lookups_S.
        cbn [app]. f_equal. unfold lookups. apply map_ext.
        intro k. now rewrite candidate_after_lookup. }
      destruct (IH w1 eq_refl) as [(n & Hn & Hbefore & Hfree & Hrun)
                                  |(Hall & Hspin & Hdb & Hlog)].
      * left. exists (S n). split; [lia|].
        split; [|split].
        -- intros k Hk. destruct k as [|k]; [exact E0|].
           rewrite <- Hshift. apply Hbefore. lia.
        -- now rewrite <- Hshift.
        -- rewrite Hrun. subst w1. rewrite candidate_after_lookup. f_equal.
           unfold searched.
           cbn [db clock entropy drawn log after take_draws].
           f_equal; [lia|].
           rewrite <- app_assoc. f_equal. rewrite (lookups_S w (S n)).
           cbn [app]. f_equal. unfold lookups. apply map_ext.
           intro k. now rewrite candidate_after_lookup.
      * right. split; [|split; [exact Hspin|split; [exact Hdb|]]].
        -- intros k Hk. destruct k as [|k]; [exact E0|].
           rewrite <- Hshift. apply Hall. lia.
        -- now rewrite Hlog.
    + left. exists 0%nat. split; [lia|]. split; [intros k Hk; lia|].
      split; [exact E0|].
      apply run_generate_unique_nth; auto; [lia|intros k Hk; lia].
Qed.

Lemma map_fixed {A : Type} (f : A -> A) (ls : list A) :
  (forall x, In x ls -> f x = x) -> map f ls = ls.
Proof.
  induction ls as [|x ls IH]; intro H; simpl; [reflexivity|].
  rewrite H by now left. rewrite IH; [reflexivity|].
  intros y Hy. apply H. now right.
Qed.

Lemma taken_app (c : string) (ls ls' : list link) (n : Z) :
  taken c {| links := ls ++ ls'; next_id := n |}
  = taken c {| links := ls; next_id := n |}
    || taken c {| links := ls'; next_id := n |}.
Proof. unfold taken. cbn [links]. apply existsb_app. Qed.

(** *** The order of the listing *)

Lemma not_older_trans (a b c : link) :
  not_older a b -> not_older b c -> not_older a c.
Proof. unfold not_older. lia. Qed.

Lemma insert_desc_perm (l : link) (ls : list link) :
  Permutation (insert_desc l ls) (l :: ls).
Proof.
  induction ls as [|x ls IH]; simpl; [reflexivity|].
  destruct (created_at x <? created_at l)%Z; [reflexivity|].
  rewrite IH. apply perm_swap.
Qed.

Lemma newest_first_perm (ls : list link) : Permutation (newest_first ls) ls.
Proof.
  induction ls as [|x ls IH]; simpl; [reflexivity|].
  rewrite insert_desc_perm. now constructor.
Qed.

Lemma insert_desc_sorted (l : link) (ls : list link) :
  StronglySorted not_older ls -> StronglySorted not_older (insert_desc l ls).
Proof.
  induction 1 as [|x ls Hs IH Hx]; simpl.
  - repeat constructor.
  - destruct (Z.ltb_spec (created_at x) (created_at l)) as [Hlt|Hge].
    + constructor; [now constructor|].
      constructor; [unfold not_older; lia|].
      eapply Forall_impl; [|exact Hx].
      intros y Hy. unfold not_older in *. lia.
    + constructor; [exact IH|].
      rewrite (insert_desc_perm l ls). constructor; [exact Hge|exact Hx].
Qed.

Lemma newest_first_sorted (ls : list link) :
  StronglySorted not_older (newest_first ls).
Proof.
  induction ls as [|x ls IH]; simpl; [constructor|].
  now apply insert_desc_sorted.
Qed.

Section MoreHandlerFacts.

Variable BASE_URL : string.
Variable VERSION : string.
Variable URL_parses : string -> bool.

Local Abbreviation post_links' := (post_links BASE_URL URL_parses).
Local Abbreviation serve' := (serve BASE_URL VERSION URL_parses).
Local Abbreviation handler' := (handler BASE_URL VERSION URL_parses).
Local Abbreviation serve_all' := (serve_all BASE_URL VERSION URL_parses).

(** X1: an Allocate with a well-formed explicit code sends one statement,
    the INSERT, with no lookup before it.  When the code is taken the
    answer is Conflict (409) and the table is unchanged; and whatever the
    other requests commit before the INSERT, the answer is 409 exactly
    when the code is taken at that moment, otherwise 201: two requests for
    the same code cannot both succeed. *)
Theorem allocate_explicit_code_conflict
        (fuel : nat) (u c : string) (w : world) :
  u <> "" -> URL_parses u = true -> isValidCode c = true ->
  (taken c (db w) = true ->
   run (post_links' fuel (Some u) (Some c)) (alone w)
   = (Returned (Json 409 (Message "Code already exists")),
      after (InsertLink c u) (db w) w))
  /\ (forall t rest,
         fault t = None ->
         fst (run (post_links' fuel (Some u) (Some c)) (amid (t :: rest) w))
         = Returned
             (if taken c (db (interfere t w))
              then Json 409 (Message "Code already exists")
              else Json 201 (LinkJson
                     (created c u (interfere t w)) (short_url BASE_URL c)))
         /\ log (snd (run (post_links' fuel (Some u) (Some c))
                          (amid (t :: rest) w)))
            = (log w ++ [InsertLink c u])%list).
Proof.
  intros Hu Hp Hv.
  assert (Hc : c <> "") by (now apply isValidCode_nonempty).
  split.
  - intro Ht. rewrite run_post_links_explicit by easy.
    cbn [db alone]. now rewrite Ht.
  - intros t rest Hf. unfold post_links, isValidUrl.
    destruct u as [|a u']; [easy|]. destruct c as [|b c']; [easy|].
    cbn [truthy to_string negb andb]. rewrite Hp, Hv. cbn [negb].
    rewrite run_try_catch. cbn [bind].
    rewrite run_bind, (run_query_tick _ _ t rest) by easy.
    cbn [exec_statement].
    change (db (interfere t (amid (t :: rest) w))) with (db (interfere t w)).
    fold (taken (String b c') (db (interfere t w))).
    destruct (taken (String b c') (db (interfere t w))); split; reflexivity.
Qed.

(** X2: after a successful Allocate of a free explicit code [c] for the
    destination [u]: Resolve of [c] redirects to [u] and the new record
    has then counter 1 while every other record is untouched; the stats
    lookup of [c] shows the record as created (counter 0); and another
    Allocate with the same code answers Conflict (409) and changes
    nothing. *)
Theorem allocate_then_use
        (fuel : nat) (u u' c : string) (w : world) :
  store_ok (db w) ->
  u <> "" -> URL_parses u = true ->
  isValidCode c = true -> c <> "healthz" ->
  taken c (db w) = false ->
  let w1 := snd (serve' fuel (Allocate (Some u) (Some c)) w) in
  fst (serve' fuel (Resolve c) w1) = Returned (Redirect 302 u)
  /\ links (db (snd (serve' fuel (Resolve c) w1)))
     = (links (db w) ++ [visit (clock w) (created c u w)])%list
  /\ fst (serve' fuel (Stats c) w1)
     = Returned (Json 200 (LinkJson (created c u w) (short_url BASE_URL c)))
  /\ (u' <> "" -> URL_parses u' = true ->
      fst (serve' fuel (Allocate (Some u') (Some c)) w1)
      = Returned (Json 409 (Message "Code already exists"))
      /\ db (snd (serve' fuel (Allocate (Some u') (Some c)) w1)) = db w1).
Proof.
  intros Hok Hu Hp Hv Hh Hfree w1.
  assert (Hc : c <> "") by (now apply isValidCode_nonempty).
  assert (Hdb1 : db w1 = inserted c u w).
  { unfold w1, serve. cbn [handler].
    rewrite run_post_links_explicit by easy.
    cbn [db alone]. now rewrite Hfree. }
  assert (Hclk1 : clock w1 = clock w).
  { unfold w1, serve. cbn [handler].
    rewrite run_post_links_explicit by easy.
    cbn [db alone]. now rewrite Hfree. }
  assert (Hlook : filter (has_code c) (links (db w1)) = [created c u w]).
  { rewrite Hdb1. cbn [inserted links]. rewrite filter_app.
    apply lookup_taken in Hfree. rewrite Hfree. cbn [filter app].
    unfold has_code at 1. cbn [code created new_link].
    now rewrite String.eqb_refl. }
  assert (Htaken : taken c (db w1) = true).
  { apply taken_true. exists (created c u w). split; [|reflexivity].
    rewrite Hdb1. cbn [inserted links]. apply in_or_app. right. now left. }
  split; [|split; [|split]].
  - unfold serve. cbn [handler]. rewrite run_get_code_alone by easy.
    cbn [db alone]. now rewrite Hlook.
  - unfold serve. cbn [handler]. rewrite run_get_code_alone by easy.
    cbn [db alone]. rewrite Hlook. cbn [snd db after links clock alone].
    rewrite Hdb1, Hclk1. cbn [inserted links]. rewrite map_app. f_equal.
    + apply map_fixed. intros x Hx. unfold visit_id.
      destruct (has_id (id (created c u w)) x) eqn:E; [|reflexivity].
      apply has_id_true in E. cbn [id created new_link] in E.
      destruct Hok as (_ & _ & Hall). rewrite Forall_forall in Hall.
      apply Hall in Hx. lia.
    + cbn [map]. unfold visit_id, has_id. now rewrite Z.eqb_refl.
  - unfold serve. cbn [handler]. rewrite run_get_link_stats_alone by easy.
    cbn [db alone]. now rewrite Hlook.
  - intros Hu' Hp'. unfold serve. cbn [handler].
    rewrite run_post_links_explicit by easy.
    cbn [db alone]. rewrite Htaken. now split.
Qed.

(** X6: the listing answers 200 with every record of the table exactly
    once (a permutation of the table), newest first by creation time, each
    with its short link [BASE_URL/code]; it changes nothing. *)
Theorem list_links_newest_first (fuel : nat) (w : world) :
  exists listed,
    fst (serve' fuel List_ w)
    = Returned (Json 200 (LinksJson
        (map (fun row => (row, (BASE_URL ++ "/" ++ code row)%string))
             listed)))
    /\ Permutation listed (links (db w))
    /\ StronglySorted not_older listed
    /\ db (snd (serve' fuel List_ w)) = db w.
Proof.
  exists (newest_first (links (db w))). unfold serve. cbn [handler].
  rewrite run_get_links_alone by reflexivity.
  split; [reflexivity|]. split; [apply newest_first_perm|].
  split; [apply newest_first_sorted|reflexivity].
Qed.

(** X7: the stats lookup answers a malformed code with 400 without any
    access to the store, a well-formed code without a record with 404, and
    the code of a record with 200, the record and its short link; it never
    changes the table (it does not count as a visit). *)
Theorem stats_lookup (fuel : nat) (c : string) (w : world) :
  (isValidCode c = false ->
   forall w0, run (get_link_stats BASE_URL c) w0
              = (Returned (Json 400 (Message "Invalid code format")), w0))
  /\ (isValidCode c = true -> taken c (db w) = false ->
      fst (serve' fuel (Stats c) w)
      = Returned (Json 404 (Message "Code not found")))
  /\ (forall l,
         isValidCode c = true -> NoDup (map code (links (db w))) ->
         In l (links (db w)) -> code l = c ->
         fst (serve' fuel (Stats c) w)
         = Returned (Json 200 (LinkJson l (BASE_URL ++ "/" ++ c)%string)))
  /\ db (snd (serve' fuel (Stats c) w)) = db w.
Proof.
  split; [|split; [|split]].
  - intros Hv w0. unfold get_link_stats. now rewrite Hv.
  - intros Hv Hfree. unfold serve. cbn [handler].
    rewrite run_get_link_stats_alone by easy.
    apply lookup_taken in Hfree. cbn [db alone]. now rewrite Hfree.
  - intros l Hv Hnd Hin Hc. unfold serve. cbn [handler].
    rewrite run_get_link_stats_alone by easy. cbn [db alone].
    rewrite <- Hc, (lookup_unique _ _ Hnd Hin). reflexivity.
  - unfold serve. cbn [handler]. destruct (isValidCode c) eqn:Hv.
    + now rewrite run_get_link_stats_alone.
    + unfold get_link_stats. now rewrite Hv.
Qed.


(** *** Store failures *)

(** X8: when the store fails the first statement a handler sends (with an
    error other than a unique violation), the handler either had sent
    nothing (the request was rejected before, the health check, or a loop
    given no iteration), or it answers with a server error (500), after
    that one statement, having written nothing to the table itself. *)
Theorem store_failure_is_server_error
        (fuel : nat) (o : operation) (w : world) (t : tick)
        (rest : list tick) (e : exn) :
  fault t = Some e -> exn_code e <> Some "23505" ->
  let r := run (handler' fuel o) (amid (t :: rest) w) in
  (log (snd r) = log w /\ db (snd r) = db w)
  \/ (fst r = Returned (match o with
                        | Resolve _ => Send 500 "Server error"
                        | _ => Json 500 (Message "Server error")
                        end)
      /\ db (snd r) = db (interfere t w)
      /\ exists q, log (snd r) = (log w ++ [q])%list).
Proof.
  intros Hf He r. subst r.
  assert (Hcatch : match exn_code e with
                   | Some c => String.eqb c "23505"
                   | None => false
                   end = false).
  { destruct (exn_code e) as [c|]; [|reflexivity].
    destruct (String.eqb_spec c "23505"); [|reflexivity]. now subst. }
  destruct o as [|url code_| |c|c|c]; cbn [handler].
  - left. now split.
  - destruct (request_cases URL_parses url code_)
      as [Hbad | (u & -> & Hu & Hp & Hcode)].
    + destruct (run_post_links_invalid BASE_URL URL_parses fuel url code_
                  (amid (t :: rest) w) Hbad) as (m & ->).
      left. now split.
    + unfold post_links, isValidUrl.
      destruct u as [|a u']; [easy|].
      cbn [truthy to_string negb]. rewrite Hp. cbn [negb].
      destruct Hcode as [Hgen | (c & -> & Hc & Hv)].
      * rewrite Hgen. cbn [negb andb].
        rewrite run_try_catch, run_bind.
        destruct fuel as [|fuel']; [left; now split|].
        cbn [generate_unique].
        rewrite run_bind, run_generateCode, run_bind.
        rewrite (run_query_fault _ _ t rest e) by easy.
        cbn [run]. rewrite Hcatch. right.
        split; [reflexivity|]. split; [reflexivity|].
        eexists. reflexivity.
      * destruct c as [|b c']; [easy|].
        cbn [truthy to_string negb andb]. rewrite Hv. cbn [negb].
        rewrite run_try_catch. cbn [bind].
        rewrite run_bind, (run_query_fault _ _ t rest e) by easy.
        cbn [run]. rewrite Hcatch. right.
        split; [reflexivity|]. split; [reflexivity|].
        eexists. reflexivity.
  - unfold get_links.
    rewrite run_try_catch, run_bind, (run_query_fault _ _ t rest e) by easy.
    right. split; [reflexivity|]. split; [reflexivity|].
    eexists. reflexivity.
  - unfold get_link_stats. destruct (isValidCode c); cbn [negb];
      [|left; now split].
    rewrite run_try_catch, run_bind, (run_query_fault _ _ t rest e) by easy.
    right. split; [reflexivity|]. split; [reflexivity|].
    eexists. reflexivity.
  - unfold delete_link. destruct (isValidCode c); cbn [negb];
      [|left; now split].
    rewrite run_try_catch, run_bind, (run_query_fault _ _ t rest e) by easy.
    right. split; [reflexivity|]. split; [reflexivity|].
    eexists. reflexivity.
  - unfold get_code.
    destruct (String.eqb c "api" || String.eqb c "healthz");
      [left; now split|].
    destruct (isValidCode c); cbn [negb]; [|left; now split].
    rewrite run_try_catch, run_bind, (run_query_fault _ _ t rest e) by easy.
    right. split; [reflexivity|]. split; [reflexivity|].
    eexists. reflexivity.
Qed.

(** *** Visits add up *)

Lemma serve_resolve_visits (fuel : nat) (c : string) (w : world) (l : link) :
  store_ok (db w) -> isValidCode c = true -> c <> "healthz" ->
  In l (links (db w)) -> code l = c ->
  fst (serve' fuel (Resolve c) w) = Returned (Redirect 302 (original_url l))
  /\ db (snd (serve' fuel (Resolve c) w))
     = {| links := map (visit_id (clock w) (id l)) (links (db w));
          next_id := next_id (db w) |}
  /\ clock (snd (serve' fuel (Resolve c) w)) = clock w.
Proof.
  intros Hok Hv Hh Hin Hc. unfold serve. cbn [handler].
  rewrite run_get_code_alone by easy. cbn [db alone].
  destruct Hok as (_ & Hnd & _).
  rewrite <- Hc, (lookup_unique _ _ Hnd Hin). now repeat split.
Qed.

Lemma visit_id_self (now : Z) (l : link) (ls : list link) :
  In l ls -> In (visit now l) (map (visit_id now (id l)) ls).
Proof.
  intro Hin. apply in_map_iff. exists l. split; [|exact Hin].
  unfold visit_id, has_id. now rewrite Z.eqb_refl.
Qed.

(** X9: [n] Resolves of the code of a record, served one after the other,
    leave the record with its counter increased by exactly [n], the same
    identity, code, destination and creation time, and (for [n] > 0) the
    time of the last visit. *)
Theorem resolve_n_times (fuel : nat) (c : string) :
  isValidCode c = true -> c <> "healthz" ->
  forall n w l,
    store_ok (db w) -> In l (links (db w)) -> code l = c ->
    exists l',
      In l' (links (db (serve_all' fuel (repeat (Resolve c) n) w)))
      /\ same_identity l l'
      /\ clicks l' = (clicks l + Z.of_nat n)%Z
      /\ ((0 < n)%nat -> last_clicked_at l' = Some (clock w)).
Proof.
  intros Hv Hh. induction n as [|n IH]; intros w l Hok Hin Hc.
  - exists l. cbn [repeat serve_all]. repeat split; [exact Hin|lia|lia].
  - cbn [repeat serve_all].
    destruct (serve_resolve_visits fuel c w l Hok Hv Hh Hin Hc)
      as (_ & Hdb & Hclk).
    set (w1 := snd (serve' fuel (Resolve c) w)) in *.
    assert (Hok1 : store_ok (db w1))
      by (now apply (serve_rows BASE_URL VERSION URL_parses)).
    assert (Hin1 : In (visit (clock w) l) (links (db w1)))
      by (rewrite Hdb; now apply visit_id_self).
    destruct (IH w1 (visit (clock w) l) Hok1 Hin1 Hc)
      as (l' & Hin' & Hsame & Hclicks & Hlast).
    exists l'. split; [exact Hin'|]. split; [|split].
    + destruct Hsame as (H1 & H2 & H3 & H4). now repeat split.
    + rewrite Hclicks. cbn [clicks visit]. lia.
    + intros _. destruct n as [|n'].
      * cbn [repeat serve_all] in Hin'.
        assert (l' = visit (clock w) l) as ->; [|reflexivity].
        destruct Hok1 as [Hnd _].
        eapply NoDup_map_eq; eauto. now destruct Hsame.
      * rewrite Hlast by lia. now rewrite Hclk.
Qed.

(** *** After a deletion *)

(** X10: after a Delete of a well-formed code, Resolve and the stats
    lookup of that code answer 404, a second Delete answers 404 and
    changes nothing, and the table holds exactly the records it held
    before with another code. *)
Theorem delete_then_not_found (fuel : nat) (c : string) (w : world) :
  isValidCode c = true ->
  let w1 := snd (serve' fuel (Delete c) w) in
  status_of_outcome (fst (serve' fuel (Resolve c) w1)) = Some 404%nat
  /\ db (snd (serve' fuel (Resolve c) w1)) = db w1
  /\ fst (serve' fuel (Stats c) w1)
     = Returned (Json 404 (Message "Code not found"))
  /\ fst (serve' fuel (Delete c) w1)
     = Returned (Json 404 (Message "Code not found"))
  /\ db (snd (serve' fuel (Delete c) w1)) = db w1
  /\ (forall l, In l (links (db w)) -> code l <> c -> In l (links (db w1)))
  /\ (forall l, In l (links (db w1)) -> In l (links (db w)) /\ code l <> c).
Proof.
  intros Hv w1.
  assert (Hdb1 : db w1
                 = {| links := filter (fun l => negb (has_code c l))
                                      (links (db w));
                      next_id := next_id (db w) |}).
  { unfold w1, serve. cbn [handler].
    now rewrite run_delete_link_alone by easy. }
  assert (Hfree : taken c (db w1) = false)
    by (rewrite Hdb1; apply taken_after_delete).
  assert (Hnone : filter (has_code c) (links (db w1)) = [])
    by (now apply lookup_taken).
  split; [|split; [|split; [|split; [|split; [|split]]]]].
  - unfold serve. cbn [handler].
    destruct (String.eqb_spec c "healthz") as [->|Hh]; [reflexivity|].
    rewrite run_get_code_alone by easy. cbn [db alone]. now rewrite Hnone.
  - unfold serve. cbn [handler].
    destruct (String.eqb_spec c "healthz") as [->|Hh]; [reflexivity|].
    rewrite run_get_code_alone by easy. cbn [db alone]. now rewrite Hnone.
  - unfold serve. cbn [handler].
    rewrite run_get_link_stats_alone by easy. cbn [db alone].
    now rewrite Hnone.
  - unfold serve. cbn [handler].
    rewrite run_delete_link_alone by easy. cbn [db alone fst].
    now rewrite Hfree.
  - unfold serve. cbn [handler].
    rewrite run_delete_link_alone by easy. cbn [db alone snd after].
    rewrite (delete_absent _ _ Hfree). now destruct (db w1).
  - intros l Hin Hc. rewrite Hdb1. cbn [links]. apply filter_In.
    split; [exact Hin|]. unfold has_code.
    now destruct (String.eqb_spec (code l) c).
  - intros l Hin. rewrite Hdb1 in Hin. cbn [links] in Hin.
    apply filter_In in Hin. destruct Hin as [Hin Hc]. split; [exact Hin|].
    unfold has_code in Hc. now destruct (String.eqb_spec (code l) c).
Qed.


(** *** Resolution among other requests *)

Lemma run_get_code_raced (c : string) (w : world) (l : link) (t : tick)
      (rest : list tick) :
  NoDup (map code (links (db w))) ->
  isValidCode c = true -> c <> "healthz" ->
  In l (links (db w)) -> code l = c -> fault t = None ->
  fst (run (get_code c) (amid (quiet :: t :: rest) w))
  = Returned (Redirect 302 (original_url l))
  /\ links (db (snd (run (get_code c) (amid (quiet :: t :: rest) w))))
     = map (visit_id (clock (interfere t w)) (id l))
           (links (db (interfere t w))).
Proof.
  intros Hnd Hv Hh Hin Hc Hf. unfold get_code.
  rewrite get_code_not_reserved, Hv by assumption. cbn [negb].
  rewrite run_try_catch, run_bind.
  rewrite (run_query_tick _ _ quiet (t :: rest)) by easy.
  rewrite interfere_quiet.
  cbn [exec_statement fst snd answer rows db amid].
  rewrite <- Hc, (lookup_unique _ _ Hnd Hin).
  cbn [List.length Nat.eqb]. rewrite run_bind.
  cbn [first_row rows answer run]. rewrite run_bind.
  rewrite (run_query_tick _ _ t rest) by easy.
  split; reflexivity.
Qed.

Lemma interfere_replay (t : tick) (w : world) :
  db (interfere t w)
  = replay (map (pair (clock w + elapsed t)%Z) (others t)) (db w).
Proof. unfold interfere. cbn [db with_db advance clock]. apply commit_all_replay. Qed.

(** X11: if the record is gone when the UPDATE of Resolve runs (another
    request deleted the code after the lookup), Resolve still redirects to
    the destination it read, and the table is left as the other requests
    made it: the UPDATE matches no record and this is not reported. *)
Theorem resolve_visit_lost_when_deleted
        (c : string) (w : world) (l : link) (t : tick) (rest : list tick) :
  store_ok (db w) ->
  isValidCode c = true -> c <> "healthz" ->
  In l (links (db w)) -> code l = c ->
  fault t = None -> taken c (db (interfere t w)) = false ->
  fst (run (get_code c) (amid (quiet :: t :: rest) w))
  = Returned (Redirect 302 (original_url l))
  /\ links (db (snd (run (get_code c) (amid (quiet :: t :: rest) w))))
     = links (db (interfere t w)).
Proof.
  intros Hok Hv Hh Hin Hc Hf Hgone.
  destruct (run_get_code_raced c w l t rest) as [Hr Hl]; auto;
    [apply Hok|].
  split; [exact Hr|]. rewrite Hl. apply map_fixed.
  intros x Hx. unfold visit_id. destruct (has_id (id l) x) eqn:E;
    [|reflexivity].
  apply has_id_true in E. exfalso.
  rewrite taken_false in Hgone. apply (Hgone x Hx).
  rewrite interfere_replay in Hx.
  assert (Hsame : same_identity l x).
  { refine (replay_rows same_identity same_identity_refl same_identity_trans
                        visit_same_identity _ (db w) l x Hok Hin Hx E). }
  destruct Hsame as (_ & Hcode & _). congruence.
Qed.

Lemma commit_visits (now i : Z) :
  forall n s l,
    In l (links s) -> id l = i ->
    exists l',
      In l' (links (commit_all now (repeat (UpdateClicksById i) n) s))
      /\ id l' = i /\ original_url l' = original_url l
      /\ clicks l' = (clicks l + Z.of_nat n)%Z.
Proof.
  induction n as [|n IH]; intros s l Hin Hid.
  - exists l. repeat split; auto. lia.
  - cbn [repeat commit_all fold_left].
    fold (commit_all now (repeat (UpdateClicksById i) n)
                     (snd (exec_statement now (UpdateClicksById i) s))).
    destruct (IH (snd (exec_statement now (UpdateClicksById i) s))
                 (visit now l)) as (l' & Hin' & Hid' & Hurl & Hclicks).
    + cbn [exec_statement snd links]. subst i. now apply visit_id_self.
    + exact Hid.
    + exists l'. repeat split; auto. rewrite Hclicks.
      cbn [clicks visit]. lia.
Qed.

(** X12: the counter is incremented in the store, relative to its value
    at the time of the UPDATE: when [n] visits of the same record by other
    requests are committed between the lookup and the UPDATE of a Resolve,
    the record ends with its counter increased by [n + 1] (no visit is
    lost) and the time of this last visit. *)
Theorem resolve_concurrent_visits_counted
        (c : string) (w : world) (l : link) (n : nat) (dt : Z)
        (rest : list tick) :
  NoDup (map code (links (db w))) ->
  isValidCode c = true -> c <> "healthz" ->
  In l (links (db w)) -> code l = c ->
  let t := {| others := repeat (UpdateClicksById (id l)) n;
              elapsed := dt; fault := None |} in
  fst (run (get_code c) (amid (quiet :: t :: rest) w))
  = Returned (Redirect 302 (original_url l))
  /\ exists l',
      In l' (links (db (snd (run (get_code c)
                                 (amid (quiet :: t :: rest) w)))))
      /\ id l' = id l
      /\ clicks l' = (clicks l + Z.of_nat n + 1)%Z
      /\ last_clicked_at l' = Some (clock w + dt)%Z.
Proof.
  intros Hnd Hv Hh Hin Hc t.
  destruct (run_get_code_raced c w l t rest) as [Hr Hl]; auto.
  split; [exact Hr|]. rewrite Hl.
  destruct (commit_visits (clock w + dt) (id l) n (db w) l Hin eq_refl)
    as (l1 & Hin1 & Hid1 & _ & Hclicks1).
  exists (visit (clock w + dt) l1).
  split; [|split; [exact Hid1|split; [|reflexivity]]].
  - rewrite <- Hid1. apply visit_id_self. exact Hin1.
  - cbn [clicks visit]. lia.
Qed.

(** *** Allocation: what is stored *)

Lemma run_entropy {A : Type} (p : prog A) :
  forall w, entropy (snd (run p w)) = entropy w.
Proof.
  induction p as [a|e|q k IH|k IH|]; intro w; try reflexivity.
  - cbn [run]. destruct (fault (hd quiet (ahead w))); [now rewrite IH|].
    destruct (exec_statement _ q _) as [r s']. now rewrite IH.
  - cbn [run]. now rewrite IH.
Qed.

Lemma run_post_links_generated_candidate
      (fuel : nat) (u : string) (code_ : option string) (w : world) :
  ahead w = [] ->
  u <> "" -> URL_parses u = true -> truthy code_ = false ->
  (exists n,
      (n < fuel)%nat
      /\ (forall k, (k < n)%nat -> taken (candidate w k) (db w) = true)
      /\ taken (candidate w n) (db w) = false
      /\ run (post_links' fuel (Some u) code_) w
         = (Returned (Json 201 (LinkJson (created (candidate w n) u w)
                                  (short_url BASE_URL (candidate w n)))),
            after (InsertLink (candidate w n) u)
                  (inserted (candidate w n) u w) (searched (S n) w)))
  \/ ((forall k, (k < fuel)%nat -> taken (candidate w k) (db w) = true)
      /\ fst (run (post_links' fuel (Some u) code_) w) = Spinning
      /\ db (snd (run (post_links' fuel (Some u) code_) w)) = db w
      /\ log (snd (run (post_links' fuel (Some u) code_) w))
         = (log w ++ lookups w fuel)%list).
Proof.
  intros Hw Hu Hp Hc.
  assert (Hrun : run (post_links' fuel (Some u) code_) w
                 = match run (generate_unique fuel) w with
                   | (Returned c, w1) =>
                       match
                         run (result <- query (InsertLink c u) ;;
                              link <- first_row result ;;
                              Ret (Json 201 (LinkJson link
                                     (short_url BASE_URL (code link))))) w1
                       with
                       | (Uncaught e, w') =>
                           (Returned
                              (if match exn_code e with
                                  | Some c => String.eqb c "23505"
                                  | None => false
                                  end
                               then Json 409 (Message "Code already exists")
                               else Json 500 (Message "Server error")), w')
                       | r => r
                       end
                   | (Uncaught e, w1) =>
                       (Returned
                          (if match exn_code e with
                              | Some c => String.eqb c "23505"
                              | None => false
                              end
                           then Json 409 (Message "Code already exists")
                           else Json 500 (Message "Server error")), w1)
                   | (Spinning, w1) => (Spinning, w1)
                   end).
  { unfold post_links, isValidUrl.
    destruct u as [|a u']; [easy|].
    cbn [truthy to_string negb]. rewrite Hp, Hc. cbn [negb andb].
    rewrite run_try_catch, run_bind.
    destruct (run (generate_unique fuel) w) as [[c|e|] w1]; cbn [run].
    - destruct (run _ w1) as [[r|e|] w']; try reflexivity.
      now destruct (match exn_code e with Some _ => _ | None => _ end).
    - now destruct (match exn_code e with Some _ => _ | None => _ end).
    - reflexivity. }
  rewrite Hrun.
  destruct (run_generate_unique_first fuel w Hw)
    as [(n & Hn & Hbefore & Hfree & Hgen) | (Hall & Hspin & Hdb & Hlog)].
  - left. exists n. repeat split; auto.
    rewrite Hgen, run_insert_alone by reflexivity.
    change (taken (candidate w n) (db (searched (S n) w)))
      with (taken (candidate w n) (db w)).
    now rewrite Hfree.
  - right. split; [exact Hall|].
    destruct (run (generate_unique fuel) w) as [[c|e|] w1];
      cbn [fst snd] in *; try discriminate.
    now repeat split.
Qed.


(** X4: whenever Allocate answers 201, with or without a requested code,
    the record it returns has a well-formed code that was free before the
    call (the requested one if one was given), the destination as given,
    counter 0, no last visit, the current time as creation time and a new
    identity; the short link shown is [BASE_URL/code]; and the table is
    the old one with this record appended. *)
Theorem allocate_success_record
        (fuel : nat) (url code_ : option string) (w : world)
        (l : link) (shown : string) :
  (forall k, draw_ok (entropy w k)) ->
  fst (serve' fuel (Allocate url code_) w)
  = Returned (Json 201 (LinkJson l shown)) ->
  isValidCode (code l) = true
  /\ taken (code l) (db w) = false
  /\ url = Some (original_url l)
  /\ (truthy code_ = true -> code_ = Some (code l))
  /\ clicks l = 0%Z /\ last_clicked_at l = None
  /\ created_at l = clock w /\ id l = next_id (db w)
  /\ shown = (BASE_URL ++ "/" ++ code l)%string
  /\ links (db (snd (serve' fuel (Allocate url code_) w)))
     = (links (db w) ++ [l])%list.
Proof.
  intros He Hr. unfold serve in *. cbn [handler] in *.
  destruct (request_cases URL_parses url code_)
    as [Hbad | (u & -> & Hu & Hp & [Hgen | (c & -> & Hc & Hv)])].
  - destruct (run_post_links_invalid BASE_URL URL_parses fuel url code_
                (alone w) Hbad) as (m & Hm).
    rewrite Hm in Hr. discriminate Hr.
  - destruct (run_post_links_generated_candidate fuel u code_ (alone w)
                eq_refl Hu Hp Hgen)
      as [(n & _ & _ & Hfree & Hrun) | (_ & Hspin & _)].
    + rewrite Hrun in *. cbn [fst] in Hr. injection Hr as <- <-.
      cbn [snd db after inserted links created new_link code original_url
           clicks last_clicked_at created_at id].
      repeat split; auto.
      * apply (candidate_valid (alone w)). exact He.
      * intro H. rewrite Hgen in H. discriminate H.
    + rewrite Hspin in Hr. discriminate Hr.
  - rewrite run_post_links_explicit in * by easy.
    cbn [db alone] in *.
    destruct (taken c (db w)) eqn:E; cbn [fst] in Hr; [discriminate Hr|].
    injection Hr as <- <-.
    cbn [snd db after inserted links created new_link code original_url
         clicks last_clicked_at created_at id].
    now repeat split.
Qed.

(** X5: as long as the candidates are taken the allocation loop has no
    bound of its own: if the first [fuel] candidates are all taken, an
    Allocate without a requested code is still running after [fuel]
    iterations, having sent one lookup per candidate and no INSERT. *)
Theorem allocate_keeps_looping
        (fuel : nat) (u : string) (code_ : option string) (w : world) :
  u <> "" -> URL_parses u = true -> truthy code_ = false ->
  (forall k, (k < fuel)%nat -> taken (candidate w k) (db w) = true) ->
  fst (serve' fuel (Allocate (Some u) code_) w) = Spinning
  /\ db (snd (serve' fuel (Allocate (Some u) code_) w)) = db w
  /\ log (snd (serve' fuel (Allocate (Some u) code_) w))
     = (log w ++ lookups w fuel)%list.
Proof.
  intros Hu Hp Hc Hall. unfold serve. cbn [handler].
  destruct (run_post_links_generated_candidate fuel u code_ (alone w)
              eq_refl Hu Hp Hc)
    as [(n & Hn & _ & Hfree & _) | (_ & Hspin & Hdb & Hlog)].
  - change (taken (candidate w n) (db w) = false) in Hfree.
    rewrite (Hall n Hn) in Hfree. discriminate Hfree.
  - now repeat split.
Qed.

(** *** The table over sequences of operations *)

Lemma serve_codes_valid (fuel : nat) (o : operation) (w : world) :
  (forall k, draw_ok (entropy w k)) -> codes_valid (db w) ->
  codes_valid (db (snd (serve' fuel o w))).
Proof.
  intros He Hval. unfold codes_valid in *.
  assert (Hadd : forall c u,
             isValidCode c = true ->
             Forall (fun l => isValidCode (code l) = true)
                    (links (inserted c u (alone w)))).
  { intros c u Hv. cbn [inserted links]. apply Forall_app.
    split; [exact Hval|]. now repeat constructor. }
  destruct o as [|url code_| |c|c|c].
  - exact Hval.
  - unfold serve. cbn [handler].
    destruct (request_cases URL_parses url code_)
      as [Hbad | (u & -> & Hu & Hp & [Hgen | (c & -> & Hc & Hv)])].
    + destruct (run_post_links_invalid BASE_URL URL_parses fuel url code_
                  (alone w) Hbad) as (m & ->).
      exact Hval.
    + destruct (run_post_links_generated_candidate fuel u code_ (alone w)
                  eq_refl Hu Hp Hgen)
        as [(n & _ & _ & _ & ->) | (_ & _ & -> & _)]; [|exact Hval].
      cbn [snd db after]. apply Hadd.
      apply (candidate_valid (alone w)). exact He.
    + rewrite run_post_links_explicit by easy.
      destruct (taken c (db (alone w))); [exact Hval|].
      cbn [snd db after]. now apply Hadd.
  - unfold serve. cbn [handler].
    now rewrite run_get_links_alone.
  - unfold serve. cbn [handler]. destruct (isValidCode c) eqn:Hv.
    + now rewrite run_get_link_stats_alone.
    + unfold get_link_stats. now rewrite Hv.
  - unfold serve. cbn [handler]. destruct (isValidCode c) eqn:Hv.
    + rewrite run_delete_link_alone by easy. cbn [snd db after alone links].
      rewrite Forall_forall in *. intros l Hl.
      apply filter_In in Hl. now apply Hval.
    + unfold delete_link. now rewrite Hv.
  - unfold serve. cbn [handler].
    destruct (String.eqb_spec c "healthz") as [->|Hh]; [exact Hval|].
    destruct (isValidCode c) eqn:Hv.
    + rewrite run_get_code_alone by easy. cbn [db alone].
      destruct (filter (has_code c) (links (db w))) as [|l ls];
        [exact Hval|].
      cbn [snd db after links]. rewrite Forall_forall in *. intros x Hx.
      apply in_map_iff in Hx. destruct Hx as (y & <- & Hy).
      unfold visit_id. destruct (has_id (id l) y); cbn [code visit];
        now apply Hval.
    + unfold get_code. rewrite Hv.
      now destruct (String.eqb c "api" || String.eqb c "healthz").
Qed.

(** X13: over every sequence of operations served one after the other,
    from a table with unique identities and codes whose codes are all
    well-formed (the empty table for one), the codes stay unique, the
    identities stay unique and every stored code is well-formed. *)
Theorem table_invariant (fuel : nat) :
  forall os w,
    (forall k, draw_ok (entropy w k)) ->
    store_ok (db w) -> codes_valid (db w) ->
    NoDup (map code (links (db (serve_all' fuel os w))))
    /\ NoDup (map id (links (db (serve_all' fuel os w))))
    /\ codes_valid (db (serve_all' fuel os w)).
Proof.
  induction os as [|o os IH]; intros w He Hok Hval.
  - cbn [serve_all]. destruct Hok as (Hid & Hcode & _). now repeat split.
  - cbn [serve_all]. apply IH.
    + intro k. unfold serve. rewrite run_entropy. apply He.
    + exact (proj1 (serve_rows BASE_URL VERSION URL_parses fuel o w Hok)).
    + now apply serve_codes_valid.
Qed.

End MoreHandlerFacts.

(* ===================================================================== *)
(** ** Examples *)
(* ===================================================================== *)

Lemma dice_ok (k : nat) : draw_ok (Example.dice k).
Proof.
  unfold Example.dice. destruct (k <? 6)%nat; unfold draw_ok; simpl; lia.
Qed.

Lemma empty_store_ok : store_ok empty_store.
Proof. unfold store_ok; simpl. repeat split; constructor. Qed.

Lemma one_link_ok : store_ok (db Example.one_link).
Proof.
  unfold store_ok; simpl. repeat split; repeat constructor; simpl;
    intuition (try discriminate; try lia).
Qed.

Lemma two_links_ok : store_ok (db Example.two_links).
Proof.
  unfold store_ok; simpl. repeat split; repeat constructor; simpl;
    intuition (try discriminate; try lia).
Qed.

(** *** utils.js *)

Lemma generateCode_length_alphabet_witness :
  (6 <= 6 <= 8)%nat
  /\ String.length ALPHABET = 62%nat
  /\ exists code_ w',
      run (generateCode 6) Example.blank = (Returned code_, w')
      /\ String.length code_ = 6%nat
      /\ all_chars in_alphabet code_ = true
      /\ db w' = db Example.blank /\ log w' = log Example.blank
      /\ clock w' = clock Example.blank /\ ahead w' = ahead Example.blank.
Proof.
  split; [lia|].
  apply (generateCode_length_alphabet 6 Example.blank); [lia|].
  exact dice_ok.
Defined.

(** *** Allocation *)

Lemma allocate_invalid_no_store_operation_witness :
  Example.parses "not-a-url" = false
  /\ isValidCode "ab" = false
  /\ (exists m, run (post_links Example.base Example.parses 3
                                (Some "not-a-url") None) Example.one_link
                = (Returned (Json 400 (Message m)), Example.one_link))
  /\ (exists m, run (post_links Example.base Example.parses 3
                                (Some Example.page) (Some "ab"))
                    Example.one_link
                = (Returned (Json 400 (Message m)), Example.one_link)).
Proof.
  split; [reflexivity|]. split; [reflexivity|]. split.
  - apply (allocate_invalid_no_store_operation Example.base Example.parses 3
             (Some "not-a-url") None Example.one_link).
    left. right. reflexivity.
  - apply (allocate_invalid_no_store_operation Example.base Example.parses 3
             (Some Example.page) (Some "ab") Example.one_link).
    right. exists "ab".
    split; [reflexivity|split; [discriminate|reflexivity]].
Defined.

(** The claim C3 as stated fails for the empty requested code: it does not
    match the format, and yet the call is served like one without a code,
    with a generated code and an insertion. *)
Lemma allocate_empty_code_counterexample :
  isValidCode "" = false
  /\ fst (run (post_links Example.base Example.parses 3
                          (Some Example.page) (Some "")) Example.blank)
     = Returned (Json 201 (LinkJson
                   (new_link 1 "aaaaaa" Example.page 1000)
                   "http://localhost:5000/aaaaaa"))
  /\ links (db (snd (run (post_links Example.base Example.parses 3
                                     (Some Example.page) (Some ""))
                         Example.blank)))
     = [new_link 1 "aaaaaa" Example.page 1000]
  /\ log (snd (run (post_links Example.base Example.parses 3
                               (Some Example.page) (Some ""))
                   Example.blank))
     = [SelectIdByCode "aaaaaa"; InsertLink "aaaaaa" Example.page].
Proof. repeat split; vm_compute; reflexivity. Qed.

Lemma allocate_generated_code_witness :
  Example.candidate_check = true
  /\ fst (run (post_links Example.base Example.parses 3
                          (Some Example.page) None) Example.first_taken)
     = Returned (Json 201 (LinkJson
                   (new_link 2 "FFFFFF" Example.page 1000)
                   "http://localhost:5000/FFFFFF"))
  /\ log (snd (run (post_links Example.base Example.parses 3
                               (Some Example.page) None)
                   Example.first_taken))
     = [SelectIdByCode "aaaaaa"; SelectIdByCode "FFFFFF";
        InsertLink "FFFFFF" Example.page]
  /\ fst (run (post_links Example.base Example.parses 3
                          (Some Example.page) None) Example.raced)
     = Returned (Json 409 (Message "Code already exists")).
Proof.
  split; [reflexivity|].
  assert (Hu : Example.page <> "") by discriminate.
  destruct (allocate_generated_code Example.base Example.parses 3
              Example.page None Example.first_taken Hu eq_refl eq_refl)
    as [Hseq _].
  destruct (allocate_generated_code Example.base Example.parses 3
              Example.page None Example.raced Hu eq_refl eq_refl)
    as [_ Hrace].
  assert (H1 : forall k, (k < 1)%nat ->
               taken (candidate Example.first_taken k)
                     (db Example.first_taken) = true).
  { intros k Hk. destruct k as [|k]; [reflexivity|lia]. }
  split; [|split].
  - rewrite (Hseq 1%nat eq_refl ltac:(lia) H1 eq_refl). reflexivity.
  - rewrite (Hseq 1%nat eq_refl ltac:(lia) H1 eq_refl). reflexivity.
  - apply (Hrace _ [] eq_refl eq_refl ltac:(lia) eq_refl eq_refl).
Defined.

(** The claim C1 as stated fails: a call without a requested code whose
    insertion meets a uniqueness conflict in the store (the candidate was
    free at the lookup and inserted by another request before the INSERT)
    returns Conflict. *)
Lemma allocate_generated_conflict_counterexample :
  truthy None = false
  /\ taken "aaaaaa" (db Example.raced) = false
  /\ fst (run (post_links Example.base Example.parses 3
                          (Some Example.page) None) Example.raced)
     = Returned (Json 409 (Message "Code already exists"))
  /\ log (snd (run (post_links Example.base Example.parses 3
                               (Some Example.page) None) Example.raced))
     = [SelectIdByCode "aaaaaa"; InsertLink "aaaaaa" Example.page]
  /\ map code (links (db (snd (run (post_links Example.base Example.parses 3
                                               (Some Example.page) None)
                                   Example.raced))))
     = ["aaaaaa"]
  /\ map original_url
         (links (db (snd (run (post_links Example.base Example.parses 3
                                          (Some Example.page) None)
                              Example.raced))))
     = ["https://elsewhere.example/"].
Proof. repeat split; vm_compute; reflexivity. Qed.

(** *** Resolution *)

Lemma resolve_recording_failure_witness :
  isValidCode "abcdef" = true
  /\ In Example.abcdef (links (db Example.failing))
  /\ fst (run (get_code "abcdef") Example.failing)
     = Returned (Send 500 "Server error")
  /\ links (db (snd (run (get_code "abcdef") Example.failing)))
     = [Example.abcdef].
Proof.
  split; [reflexivity|]. split; [now left|].
  assert (Hh : "abcdef" <> "healthz") by discriminate.
  rewrite (resolve_recording_failure
             "abcdef" Example.failing quiet _ [] Example.unavailable
             Example.abcdef [] eq_refl Hh eq_refl eq_refl eq_refl eq_refl).
  split; reflexivity.
Defined.

(** The claim C2 as stated fails: the record of "abcdef" exists, the
    lookup finds it, the UPDATE that records the visit fails, and the
    caller gets a server error instead of the destination. *)
Lemma resolve_recording_failure_counterexample :
  In Example.abcdef (links (db Example.failing))
  /\ code Example.abcdef = "abcdef"
  /\ log (snd (run (get_code "abcdef") Example.failing))
     = [SelectIdUrlByCode "abcdef"; UpdateClicksById 1]
  /\ fst (run (get_code "abcdef") Example.failing)
     = Returned (Send 500 "Server error")
  /\ fst (run (get_code "abcdef") Example.failing)
     <> Returned (Redirect 302 (original_url Example.abcdef)).
Proof.
  split; [now left|]. repeat split; try (vm_compute; reflexivity).
  vm_compute. discriminate.
Qed.

Lemma resolve_counts_visit_witness :
  store_ok (db Example.one_link)
  /\ (exists m, run (get_code "ab") Example.one_link
                = (Returned (Send 404 m), Example.one_link))
  /\ status_of_outcome
       (fst (serve Example.base Example.version Example.parses 3
                   (Resolve "abcdeX") Example.one_link)) = Some 404%nat
  /\ (exists l,
         In l (links (db Example.one_link)) /\ code l = "abcdef"
         /\ log (snd (serve Example.base Example.version Example.parses 3
                            (Resolve "abcdef") Example.one_link))
            = [SelectIdUrlByCode "abcdef"; UpdateClicksById (id l)]
         /\ In (visit 1000 l)
               (links (db (snd (serve Example.base Example.version
                                      Example.parses 3 (Resolve "abcdef")
                                      Example.one_link))))
         /\ clicks (visit 1000 l) = (clicks l + 1)%Z)
  /\ map clicks (links (db (snd (run (get_code "abcdef") Example.recreated))))
     = [0%Z].
Proof.
  split; [exact one_link_ok|].
  split; [|split; [|split]].
  - destruct (resolve_counts_visit Example.base Example.version
                Example.parses 3 "ab" Example.one_link one_link_ok)
      as (Hbad & _).
    exact (Hbad eq_refl Example.one_link).
  - destruct (resolve_counts_visit Example.base Example.version
                Example.parses 3 "abcdeX" Example.one_link one_link_ok)
      as (_ & Habsent & _).
    exact (proj1 (Habsent eq_refl)).
  - destruct (resolve_counts_visit Example.base Example.version
                Example.parses 3 "abcdef" Example.one_link one_link_ok)
      as (_ & _ & _ & Hvisit & _).
    destruct (Hvisit 302%nat Example.page eq_refl)
      as (l & Hin & Hc & _ & Hlog & Hnew & Hclicks & _).
    exists l. repeat split; assumption.
  - destruct (resolve_counts_visit Example.base Example.version
                Example.parses 3 "abcdef" Example.recreated one_link_ok)
      as (_ & _ & _ & _ & Hid).
    assert (Hh : "abcdef" <> "healthz") by discriminate.
    rewrite (Hid Example.abcdef _ [] (or_introl eq_refl) eq_refl eq_refl Hh
                 eq_refl eq_refl).
    reflexivity.
Defined.

(** *** Deletion *)

Lemma delete_then_reuse_witness :
  isValidCode "abcdef" = true
  /\ run (delete_link "abc") Example.one_link
     = (Returned (Json 400 (Message "Invalid code format")),
        Example.one_link)
  /\ fst (serve Example.base Example.version Example.parses 3
                (Delete "abcdef") Example.one_link)
     = Returned (Empty 204)
  /\ fst (serve Example.base Example.version Example.parses 3
                (Delete "abcdeX") Example.one_link)
     = Returned (Json 404 (Message "Code not found"))
  /\ exists l,
      fst (serve Example.base Example.version Example.parses 3
                 (Allocate (Some Example.page) (Some "abcdef"))
                 (snd (serve Example.base Example.version Example.parses 3
                             (Delete "abcdef") Example.one_link)))
      = Returned (Json 201 (LinkJson l (short_url Example.base "abcdef")))
      /\ code l = "abcdef".
Proof.
  split; [reflexivity|].
  destruct (delete_then_reuse Example.base Example.version Example.parses
              3 "abc" Example.one_link) as [Hbad _].
  destruct (delete_then_reuse Example.base Example.version Example.parses
              3 "abcdef" Example.one_link) as [_ Hthere].
  destruct (delete_then_reuse Example.base Example.version Example.parses
              3 "abcdeX" Example.one_link) as [_ Habsent].
  split; [exact (Hbad eq_refl Example.one_link)|].
  split; [exact (proj1 (Hthere eq_refl))|].
  split; [exact (proj1 (Habsent eq_refl))|].
  destruct (Hthere eq_refl) as (_ & _ & _ & _ & Hreuse).
  assert (Hu : Example.page <> "") by discriminate.
  destruct (Hreuse Example.page Hu eq_refl) as (l & Hr & Hc & _).
  exists l. split; assumption.
Defined.

(** *** The counter and the frame *)

Lemma visit_count_monotone_witness :
  store_ok (db Example.blank)
  /\ store_ok (db Example.one_link)
  /\ Forall (fun l => (0 <= clicks l)%Z)
            (links (db (serve_all Example.base Example.version
                                  Example.parses 3
                                  [Allocate (Some Example.page)
                                            (Some "abcdef");
                                   Resolve "abcdef"; List_;
                                   Allocate (Some Example.page) None;
                                   Resolve "abcdef"; Stats "abcdef"]
                                  Example.blank)))
  /\ forall l',
      In l' (links (db (serve_all Example.base Example.version
                                  Example.parses 3
                                  [Resolve "abcdef"; Resolve "abcdef"]
                                  Example.one_link))) ->
      id l' = id Example.abcdef ->
      (clicks Example.abcdef <= clicks l')%Z.
Proof.
  split; [exact empty_store_ok|]. split; [exact one_link_ok|].
  destruct (visit_count_monotone Example.base Example.version Example.parses
              3 Health Example.blank empty_store_ok)
    as (_ & _ & _ & _ & Hnonneg & _).
  destruct (visit_count_monotone Example.base Example.version Example.parses
              3 Health Example.one_link one_link_ok)
    as (_ & _ & _ & Hmono & _).
  split; [apply Hnonneg|].
  intros l' Hin Hid.
  exact (Hmono _ Example.abcdef l' (or_introl eq_refl) Hin Hid).
Defined.

Lemma immutable_fields_witness :
  store_ok (db Example.two_links)
  /\ forall l',
      In l' (links (db (serve_all Example.base Example.version
                                  Example.parses 3
                                  [Resolve "abcdef"; Delete "healthz";
                                   Allocate (Some Example.page)
                                            (Some "healthz")]
                                  Example.two_links))) ->
      id l' = id Example.abcdef ->
      same_identity Example.abcdef l'.
Proof.
  split; [exact two_links_ok|].
  destruct (immutable_fields Example.base Example.version Example.parses
              3 Health Example.two_links two_links_ok)
    as (_ & _ & Hseq & _).
  intros l' Hin Hid.
  exact (Hseq _ Example.abcdef l' (or_introl eq_refl) Hin Hid).
Defined.

Lemma healthz_never_resolved_witness :
  isValidCode "healthz" = true
  /\ fst (serve Example.base Example.version Example.parses 3
                (Allocate (Some Example.page) (Some "healthz"))
                Example.one_link)
     = Returned (Json 201 (LinkJson
                   (created "healthz" Example.page Example.one_link)
                   (short_url Example.base "healthz")))
  /\ run (get_code "healthz") Example.two_links
     = (Returned (Send 404 "Not found"), Example.two_links)
  /\ forall l',
      In l' (links (db (serve_all Example.base Example.version
                                  Example.parses 3
                                  [Resolve "healthz"; Resolve "abcdef";
                                   Resolve "healthz"]
                                  Example.two_links))) ->
      id l' = id Example.healthz ->
      clicks l' = 0%Z.
Proof.
  destruct (healthz_never_resolved Example.base Example.version
              Example.parses 3) as (Hvalid & Halloc & Hskip & Hzero).
  split; [exact Hvalid|].
  assert (Hu : Example.page <> "") by discriminate.
  split; [exact (proj1 (Halloc Example.page Example.one_link Hu
                               eq_refl eq_refl))|].
  split; [exact (proj1 (Hskip Example.two_links))|].
  intros l' Hin Hid.
  exact (proj1 (Hzero _ Example.two_links Example.healthz l' two_links_ok
                      (or_intror (or_introl eq_refl)) eq_refl Hin Hid)).
Defined.

(** *** Further properties *)

Lemma generateCode_isValidCode_witness :
  exists code_,
    fst (run (generateCode 6) Example.blank) = Returned code_
    /\ isValidCode code_ = true.
Proof. exact (generateCode_isValidCode 6 Example.blank dice_ok). Defined.

Lemma allocate_explicit_code_conflict_witness :
  taken "abcdef" (db Example.one_link) = true
  /\ fst (run (post_links Example.base Example.parses 3
                          (Some Example.page) (Some "abcdef"))
              (alone Example.one_link))
     = Returned (Json 409 (Message "Code already exists"))
  /\ taken "abcdeX" (db Example.one_link) = false
  /\ fst (run (post_links Example.base Example.parses 3
                          (Some Example.page) (Some "abcdeX"))
              (amid [Scenario.inserts_first] Example.one_link))
     = Returned (Json 409 (Message "Code already exists")).
Proof.
  assert (Hu : Example.page <> "") by discriminate.
  split; [reflexivity|]. split; [|split; [reflexivity|]].
  - destruct (allocate_explicit_code_conflict Example.base Example.parses 3
                Example.page "abcdef" Example.one_link Hu eq_refl eq_refl)
      as [Htaken _].
    now rewrite (Htaken eq_refl).
  - destruct (allocate_explicit_code_conflict Example.base Example.parses 3
                Example.page "abcdeX" Example.one_link Hu eq_refl eq_refl)
      as [_ Hrace].
    exact (proj1 (Hrace Scenario.inserts_first [] eq_refl)).
Defined.

Lemma allocate_then_use_witness :
  fst (serve Example.base Example.version Example.parses 3
             (Resolve "abcdeX")
             (snd (serve Example.base Example.version Example.parses 3
                         (Allocate (Some Example.page) (Some "abcdeX"))
                         Example.one_link)))
  = Returned (Redirect 302 Example.page)
  /\ fst (serve Example.base Example.version Example.parses 3
                (Allocate (Some Example.page) (Some "abcdeX"))
                (snd (serve Example.base Example.version Example.parses 3
                            (Allocate (Some Example.page) (Some "abcdeX"))
                            Example.one_link)))
     = Returned (Json 409 (Message "Code already exists")).
Proof.
  assert (Hu : Example.page <> "") by discriminate.
  assert (Hh : "abcdeX" <> "healthz") by discriminate.
  destruct (allocate_then_use Example.base Example.version Example.parses 3
              Example.page Example.page "abcdeX" Example.one_link
              one_link_ok Hu eq_refl eq_refl Hh eq_refl)
    as (Hres & _ & _ & Hagain).
  split; [exact Hres|exact (proj1 (Hagain Hu eq_refl))].
Defined.

Lemma allocate_success_record_witness :
  isValidCode "FFFFFF" = true
  /\ taken "FFFFFF" (db Example.first_taken) = false
  /\ links (db (snd (serve Example.base Example.version Example.parses 3
                           (Allocate (Some Example.page) None)
                           Example.first_taken)))
     = [Example.aaaaaa; new_link 2 "FFFFFF" Example.page 1000].
Proof.
  destruct (allocate_success_record Example.base Example.version
              Example.parses 3 (Some Example.page) None Example.first_taken
              (new_link 2 "FFFFFF" Example.page 1000)
              "http://localhost:5000/FFFFFF" dice_ok eq_refl)
    as (Hv & Hfree & _ & _ & _ & _ & _ & _ & _ & Hlinks).
  split; [exact Hv|]. split; [exact Hfree|exact Hlinks].
Defined.

Lemma allocate_keeps_looping_witness :
  taken (candidate Example.first_taken 0) (db Example.first_taken) = true
  /\ fst (serve Example.base Example.version Example.parses 1
                (Allocate (Some Example.page) None) Example.first_taken)
     = Spinning
  /\ log (snd (serve Example.base Example.version Example.parses 1
                     (Allocate (Some Example.page) None)
                     Example.first_taken))
     = [SelectIdByCode "aaaaaa"].
Proof.
  split; [reflexivity|].
  assert (Hu : Example.page <> "") by discriminate.
  assert (Hall : forall k, (k < 1)%nat ->
                 taken (candidate Example.first_taken k)
                       (db Example.first_taken) = true).
  { intros k Hk. destruct k as [|k]; [reflexivity|lia]. }
  destruct (allocate_keeps_looping Example.base Example.version
              Example.parses 1 Example.page None Example.first_taken
              Hu eq_refl eq_refl Hall) as (Hspin & _ & Hlog).
  split; [exact Hspin|exact Hlog].
Defined.

Lemma stats_lookup_witness :
  run (get_link_stats Example.base "ab") Example.one_link
  = (Returned (Json 400 (Message "Invalid code format")), Example.one_link)
  /\ fst (serve Example.base Example.version Example.parses 3
                (Stats "abcdeX") Example.one_link)
     = Returned (Json 404 (Message "Code not found"))
  /\ fst (serve Example.base Example.version Example.parses 3
                (Stats "abcdef") Example.one_link)
     = Returned (Json 200 (LinkJson Example.abcdef
                             "http://localhost:5000/abcdef")).
Proof.
  destruct (stats_lookup Example.base Example.version Example.parses 3
              "ab" Example.one_link) as (Hbad & _).
  destruct (stats_lookup Example.base Example.version Example.parses 3
              "abcdeX" Example.one_link) as (_ & Habsent & _).
  destruct (stats_lookup Example.base Example.version Example.parses 3
              "abcdef" Example.one_link) as (_ & _ & Hfound & _).
  split; [exact (Hbad eq_refl Example.one_link)|].
  split; [exact (Habsent eq_refl eq_refl)|].
  refine (Hfound Example.abcdef eq_refl _ (or_introl eq_refl) eq_refl).
  exact (proj1 (proj2 one_link_ok)).
Defined.

Lemma store_failure_is_server_error_witness :
  fst (run (handler Example.base Example.version Example.parses 3
                    (Delete "abcdef"))
           (amid [Scenario.down] Example.one_link))
  = Returned (Json 500 (Message "Server error"))
  /\ db (snd (run (handler Example.base Example.version Example.parses 3
                           (Delete "abcdef"))
                  (amid [Scenario.down] Example.one_link)))
     = db Example.one_link.
Proof.
  assert (He : exn_code Example.unavailable <> Some "23505")
    by discriminate.
  destruct (store_failure_is_server_error Example.base Example.version
              Example.parses 3 (Delete "abcdef") Example.one_link
              Scenario.down [] Example.unavailable eq_refl He)
    as [[Hlog _] | (Hr & Hdb & _)].
  - discriminate Hlog.
  - split; [exact Hr|exact Hdb].
Defined.

Lemma resolve_n_times_witness :
  exists l',
    In l' (links (db (serve_all Example.base Example.version Example.parses
                                3 [Resolve "abcdef"; Resolve "abcdef"]
                                Example.one_link)))
    /\ same_identity Example.abcdef l'
    /\ clicks l' = 2%Z.
Proof.
  assert (Hh : "abcdef" <> "healthz") by discriminate.
  destruct (resolve_n_times Example.base Example.version Example.parses 3
              "abcdef" eq_refl Hh 2 Example.one_link Example.abcdef
              one_link_ok (or_introl eq_refl) eq_refl)
    as (l' & Hin & Hsame & Hclicks & _).
  exists l'. split; [exact Hin|]. split; [exact Hsame|exact Hclicks].
Defined.

Lemma delete_then_not_found_witness :
  status_of_outcome
    (fst (serve Example.base Example.version Example.parses 3
                (Resolve "abcdef")
                (snd (serve Example.base Example.version Example.parses 3
                            (Delete "abcdef") Example.two_links))))
  = Some 404%nat
  /\ In Example.healthz
        (links (db (snd (serve Example.base Example.version Example.parses
                               3 (Delete "abcdef") Example.two_links)))).
Proof.
  destruct (delete_then_not_found Example.base Example.version
              Example.parses 3 "abcdef" Example.two_links eq_refl)
    as (Hres & _ & _ & _ & _ & Hkept & _).
  split; [exact Hres|].
  apply Hkept; [right; now left|discriminate].
Defined.

Lemma resolve_visit_lost_when_deleted_witness :
  fst (run (get_code "abcdef")
           (amid [quiet; Scenario.deletes] Example.one_link))
  = Returned (Redirect 302 Example.page)
  /\ links (db (snd (run (get_code "abcdef")
                         (amid [quiet; Scenario.deletes] Example.one_link))))
     = [].
Proof.
  assert (Hh : "abcdef" <> "healthz") by discriminate.
  exact (resolve_visit_lost_when_deleted
           "abcdef" Example.one_link Example.abcdef Scenario.deletes []
           one_link_ok eq_refl Hh (or_introl eq_refl) eq_refl eq_refl
           eq_refl).
Defined.

Lemma resolve_concurrent_visits_counted_witness :
  exists l',
    In l' (links (db (snd (run (get_code "abcdef")
                               (amid [quiet;
                                      {| others := [UpdateClicksById 1;
                                                    UpdateClicksById 1];
                                         elapsed := 1; fault := None |}]
                                     Example.one_link)))))
    /\ id l' = 1%Z /\ clicks l' = 3%Z.
Proof.
  assert (Hh : "abcdef" <> "healthz") by discriminate.
  destruct (resolve_concurrent_visits_counted
              "abcdef" Example.one_link Example.abcdef 2 1 []
              (proj1 (proj2 one_link_ok)) eq_refl Hh (or_introl eq_refl)
              eq_refl)
    as (_ & l' & Hin & Hid & Hclicks & _).
  exists l'. split; [exact Hin|]. split; [exact Hid|exact Hclicks].
Defined.

Lemma table_invariant_witness :
  NoDup (map code (links (db (serve_all Example.base Example.version
                                        Example.parses 3 Scenario.session
                                        Example.blank))))
  /\ codes_valid (db (serve_all Example.base Example.version Example.parses
                                3 Scenario.session Example.blank)).
Proof.
  destruct (table_invariant Example.base Example.version Example.parses 3
              Scenario.session Example.blank dice_ok empty_store_ok
              (Forall_nil _))
    as (Hcodes & _ & Hvalid).
  split; [exact Hcodes|exact Hvalid].
Defined.
